(** * Algo_trade: backtesting engine and risk manager

    A shallow embedding of [src/main.py] ([TradingStrategy.sma_crossover],
    [Backtester.run]) and [src/risk_management.py] ([RiskManager],
    [apply_risk_management]), and the properties of the specification
    checked against it.

    Numbers.  The program computes in binary64, and is embedded twice.

    The first embedding reads a float as the rational it denotes ([Q]).
    It carries the structure of the computation: which bars trade, which
    trades are kept and how they are annotated, how the ledger, the peak
    and the equity curve evolve, and what the code does at a zero divisor,
    which differs between the two kinds of float the program mixes:
    - a Python [float] (the arguments of [RiskManager]) raises
      [ZeroDivisionError]: [py_div];
    - a numpy [float64] (anything computed from [data['Close'].iloc[i]])
      yields [inf], [-inf] or [nan]: [np_div], and [int()] of those raises
      [OverflowError] or [ValueError]: [np_int].
    Rounding, overflow and non-finite inputs are outside this embedding.

    The second embedding, [Binary64], repeats the position sizer and the
    trading loop over the primitive binary64 numbers, operation by
    operation.  What the specification says of share counts and of cash,
    where rounding and overflow decide, is checked against it. *)

From Stdlib Require Import ZArith QArith Qround Qminmax Lia Lqa String.
From Stdlib Require Import Floats.
From stdpp Require Import base list.

Local Open Scope Q_scope.

(** ** Exceptions and fallible computations *)

Inductive exn : Type :=
| ZeroDivisionError
| OverflowError
| ValueError
| IndexError.

Inductive result (A : Type) : Type :=
| Ok (a : A)
| Raise (e : exn).

Arguments Ok {A} a.
Arguments Raise {A} e.

Definition bind {A B : Type} (r : result A) (k : A -> result B) : result B :=
  match r with
  | Ok a => k a
  | Raise e => Raise e
  end.

Notation "x <- r ;; k" := (bind r (fun x => k))
  (at level 100, r at next level, right associativity, only parsing).

(** ** Numbers *)

(** [x < y] as a boolean test. *)
Definition Qltb (x y : Q) : bool := negb (Qle_bool y x).

(** Python's [int(x)] on a finite float: truncation toward zero. *)
Definition Qtrunc (q : Q) : Z := Z.quot (Qnum q) (Z.pos (Qden q)).

(** Python [float] division. *)
Definition py_div (a b : Q) : result Q :=
  if Qeq_bool b 0 then Raise ZeroDivisionError else Ok (a / b).

(** Python's [min(a, b)]: the first argument unless the second is smaller. *)
Definition py_min (a b : Q) : Q := if Qltb b a then b else a.

(** A numpy [float64] computed from finite operands. *)
Inductive npfloat : Type :=
| Fin (q : Q)
| PInf
| NInf
| NaN.

(** numpy division of finite values: no exception, [x/0] is [±inf] or [nan]. *)
Definition np_div (a b : Q) : npfloat :=
  if Qeq_bool b 0 then
    if Qltb 0 a then PInf else if Qltb a 0 then NInf else NaN
  else Fin (a / b).

(** [x * k] for a finite [k]. *)
Definition np_mul (x : npfloat) (k : Q) : npfloat :=
  match x with
  | Fin q => Fin (q * k)
  | PInf => if Qltb 0 k then PInf else if Qltb k 0 then NInf else NaN
  | NInf => if Qltb 0 k then NInf else if Qltb k 0 then PInf else NaN
  | NaN => NaN
  end.

(** [x > y]; every comparison with [nan] is false. *)
Definition np_gtb (x y : npfloat) : bool :=
  match x, y with
  | NaN, _ | _, NaN => false
  | Fin a, Fin b => Qltb b a
  | PInf, PInf => false
  | PInf, _ => true
  | _, PInf => false
  | NInf, _ => false
  | Fin _, NInf => true
  end.

(** [int(x)] of a numpy float. *)
Definition np_int (x : npfloat) : result Z :=
  match x with
  | Fin q => Ok (Qtrunc q)
  | PInf | NInf => Raise OverflowError
  | NaN => Raise ValueError
  end.

(** ** Trades: the dictionaries of the ledger *)

Inductive ExitReason : Type := stop_loss | take_profit | signal.

Module Trade.
(** The keys [Backtester.run] writes ([type], [price], [shares], [value],
    [profit] on a SELL, [date]), the key [apply_risk_management] reads
    with a default ([available_capital]), and the four keys it adds.
    An absent key is [None]. *)
Record t : Type := mk {
  type : string;
  price : Q;
  shares : Z;
  value : Q;
  profit : option Q;
  date : Z;
  available_capital : option Q;
  position_size : option Z;
  stop_loss_price : option Q;
  risk_reward : option Q;
  exit_reason : option ExitReason
}.

(** The part of a trade that is not an annotation. *)
Definition core (x : t) : string * Q * Z * Q * option Q * Z * option Q :=
  (type x, price x, shares x, value x, profit x, date x, available_capital x).

(** [trade['position_size'] = ...; trade['stop_loss_price'] = ...;
    trade['risk_reward'] = ...] *)
Definition annotate_entry (x : t) (ps : Z) (slp rr : Q) : t :=
  mk (type x) (price x) (shares x) (value x) (profit x) (date x)
     (available_capital x) (Some ps) (Some slp) (Some rr) (exit_reason x).

(** [trade['exit_reason'] = ...] *)
Definition annotate_exit (x : t) (r : ExitReason) : t :=
  mk (type x) (price x) (shares x) (value x) (profit x) (date x)
     (available_capital x) (position_size x) (stop_loss_price x)
     (risk_reward x) (Some r).
End Trade.

(** ** risk_management.py: RiskManager *)

Module DrawdownInfo.
(** The dictionary [update_drawdown] returns. *)
Record t : Type := mk {
  current_drawdown : Q;
  max_drawdown : Q;
  peak_value : Q;
  halt_trading : bool
}.
End DrawdownInfo.

(** The [reason] of a rejection; the f-string rendering of the ratio is
    not modelled, the ratio itself is carried. *)
Inductive Reason : Type :=
| Maximum_drawdown_exceeded
| Poor_risk_reward_ratio (risk_reward : Q)
| Insufficient_capital_for_position.

(** The four dictionaries [should_enter_trade] returns. *)
Inductive Decision : Type :=
| RejectDrawdown (drawdown : Q)
| RejectRiskReward (risk_reward : Q)
| RejectCapital (required : Q)
| Enter (position_size : Z) (stop_loss_price risk_reward max_loss : Q).

Definition enter (d : Decision) : bool :=
  match d with
  | Enter _ _ _ _ => true
  | _ => false
  end.

Definition reason (d : Decision) : option Reason :=
  match d with
  | RejectDrawdown _ => Some Maximum_drawdown_exceeded
  | RejectRiskReward rr => Some (Poor_risk_reward_ratio rr)
  | RejectCapital _ => Some Insufficient_capital_for_position
  | Enter _ _ _ _ => None
  end.

Module RiskManager.
Record t : Type := mk {
  initial_capital : Q;
  max_position_size : Q;
  stop_loss_pct : Q;
  take_profit_pct : Q;
  max_drawdown_pct : Q;
  peak_value : Q;
  current_drawdown : Q
}.

(** [__init__] *)
Definition init (initial_capital max_position_size stop_loss_pct
                 take_profit_pct max_drawdown_pct : Q) : t :=
  mk initial_capital max_position_size stop_loss_pct take_profit_pct
     max_drawdown_pct initial_capital 0.

(** [RiskManager()] with the defaults of the signature. *)
Definition default : t := init 100000 0.2 0.05 0.10 0.20.

Definition set_peak_value (self : t) (v : Q) : t :=
  mk (initial_capital self) (max_position_size self) (stop_loss_pct self)
     (take_profit_pct self) (max_drawdown_pct self) v (current_drawdown self).

Definition set_current_drawdown (self : t) (v : Q) : t :=
  mk (initial_capital self) (max_position_size self) (stop_loss_pct self)
     (take_profit_pct self) (max_drawdown_pct self) (peak_value self) v.

Definition calculate_position_size (self : t)
    (current_capital current_price : Q) (volatility : option Q) : result Z :=
  let max_investment := current_capital * max_position_size self in
  q <- py_div max_investment current_price ;;
  let shares := Qtrunc q in
  shares <-
    match volatility with
    | Some v =>
        (* [if volatility and volatility > 0] *)
        if negb (Qeq_bool v 0) && Qltb 0 v then
          r <- py_div 1 v ;;
          let kelly_fraction := py_min 0.25 r in
          Ok (Qtrunc (inject_Z shares * kelly_fraction))
        else Ok shares
    | None => Ok shares
    end ;;
  Ok (Z.max 0 shares).

Definition check_stop_loss (self : t) (entry_price current_price : Q)
  : result bool :=
  loss_pct <- py_div (entry_price - current_price) entry_price ;;
  Ok (Qle_bool (stop_loss_pct self) loss_pct).

Definition check_take_profit (self : t) (entry_price current_price : Q)
  : result bool :=
  profit_pct <- py_div (current_price - entry_price) entry_price ;;
  Ok (Qle_bool (take_profit_pct self) profit_pct).

(** Mutates [self]: the second component is the instance after the call,
    also when the call raises. *)
Definition update_drawdown (self : t) (current_value : Q)
  : result DrawdownInfo.t * t :=
  let self :=
    if Qltb (peak_value self) current_value
    then set_peak_value self current_value else self in
  match py_div (peak_value self - current_value) (peak_value self) with
  | Raise e => (Raise e, self)
  | Ok d =>
      let self := set_current_drawdown self d in
      let halt_trading :=
        Qle_bool (max_drawdown_pct self) (current_drawdown self) in
      (Ok (DrawdownInfo.mk (current_drawdown self) (max_drawdown_pct self)
             (peak_value self) halt_trading), self)
  end.

Definition calculate_risk_reward_ratio (self : t)
    (entry_price target_price stop_loss_price : Q) : result Q :=
  let potential_profit := target_price - entry_price in
  let potential_loss := entry_price - stop_loss_price in
  if Qle_bool potential_loss 0 then Ok 0
  else py_div potential_profit potential_loss.

(** The local [stop_loss_price] of [should_enter_trade]. *)
Definition stop_loss_price_for (self : t) (entry_price : Q) : Q :=
  entry_price * (1 - stop_loss_pct self).

Definition should_enter_trade (self : t)
    (current_capital entry_price target_price : Q) : result Decision * t :=
  let stop_loss_price := stop_loss_price_for self entry_price in
  match update_drawdown self current_capital with
  | (Raise e, self) => (Raise e, self)
  | (Ok drawdown_info, self) =>
      if DrawdownInfo.halt_trading drawdown_info then
        (Ok (RejectDrawdown (DrawdownInfo.current_drawdown drawdown_info)),
         self)
      else
        (risk_reward <-
           calculate_risk_reward_ratio self entry_price target_price
             stop_loss_price ;;
         if Qltb risk_reward 2 then Ok (RejectRiskReward risk_reward)
         else
           position_size <-
             calculate_position_size self current_capital entry_price None ;;
           if (position_size =? 0)%Z then Ok (RejectCapital entry_price)
           else
             Ok (Enter position_size stop_loss_price risk_reward
                   (inject_Z position_size * entry_price
                    * stop_loss_pct self)),
         self)
  end.
End RiskManager.

(** ** risk_management.py: apply_risk_management *)

(** The ledger is a Python list of references to dictionaries, annotated in
    place: a store maps an object identity to the dictionary's content, and
    a ledger is a list of identities (the same dictionary may occur twice). *)
Definition store : Type := nat -> Trade.t.

Definition store_set (h : store) (r : nat) (x : Trade.t) : store :=
  fun r' => if Nat.eqb r' r then x else h r'.

Module ARM.
(** The variables of the loop of [apply_risk_management]. *)
Record state : Type := mk {
  heap : store;
  risk_manager : RiskManager.t;
  managed_trades : list nat;
  current_position : option nat
}.
End ARM.

(** One iteration of [for trade in trades]. The state is returned also when
    the iteration raises. *)
Definition apply_risk_management_step (s : ARM.state) (trade : nat)
  : result unit * ARM.state :=
  let h := ARM.heap s in
  let rm := ARM.risk_manager s in
  let tr := h trade in
  if String.eqb (Trade.type tr) "BUY" then
    let target_price :=
      Trade.price tr * (1 + RiskManager.take_profit_pct rm) in
    let capital :=
      match Trade.available_capital tr with Some c => c | None => 100000 end in
    match RiskManager.should_enter_trade rm capital (Trade.price tr)
            target_price with
    | (Raise e, rm') =>
        (Raise e,
         ARM.mk h rm' (ARM.managed_trades s) (ARM.current_position s))
    | (Ok (Enter ps slp rr _), rm') =>
        (Ok tt,
         ARM.mk (store_set h trade (Trade.annotate_entry tr ps slp rr)) rm'
           (ARM.managed_trades s ++ [trade]) (Some trade))
    | (Ok _, rm') =>
        (Ok tt,
         ARM.mk h rm' (ARM.managed_trades s) (ARM.current_position s))
    end
  else
    match String.eqb (Trade.type tr) "SELL", ARM.current_position s with
    | true, Some cp =>
        let entry := Trade.price (h cp) in
        let tagged :=
          sl <- RiskManager.check_stop_loss rm entry (Trade.price tr) ;;
          if sl : bool then Ok stop_loss
          else
            tp <- RiskManager.check_take_profit rm entry (Trade.price tr) ;;
            if tp : bool then Ok take_profit else Ok signal in
        match tagged with
        | Raise e => (Raise e, s)
        | Ok why =>
            (Ok tt,
             ARM.mk (store_set h trade (Trade.annotate_exit tr why)) rm
               (ARM.managed_trades s ++ [trade]) None)
        end
    | _, _ => (Ok tt, s)
    end.

Fixpoint apply_risk_management_loop (s : ARM.state) (trades : list nat)
  : result unit * ARM.state :=
  match trades with
  | [] => (Ok tt, s)
  | trade :: rest =>
      match apply_risk_management_step s trade with
      | (Ok _, s') => apply_risk_management_loop s' rest
      | (Raise e, s') => (Raise e, s')
      end
  end.

(** [apply_risk_management(trades, prices, risk_manager)]; [prices] is never
    read. Returns the list [managed_trades] (or the exception), and the
    store and the risk manager as the call leaves them. *)
Definition apply_risk_management (h : store) (trades : list nat)
    (risk_manager : RiskManager.t)
  : result (list nat) * store * RiskManager.t :=
  match apply_risk_management_loop (ARM.mk h risk_manager [] None) trades with
  | (Ok _, s) => (Ok (ARM.managed_trades s), ARM.heap s, ARM.risk_manager s)
  | (Raise e, s) => (Raise e, ARM.heap s, ARM.risk_manager s)
  end.

(** ** main.py: the data frame and TradingStrategy.sma_crossover *)

Module Row.
(** One row of the frame: the index ([date]), the [Close] column and the
    [Signal] column a strategy writes. The engine reads no other column. *)
Record t : Type := mk {
  date : Z;
  Close : Q;
  Signal : Z
}.
End Row.

(** [Series.diff()] on an integer column: undefined ([nan]) at the first
    row, the difference with the previous row after it. *)
Fixpoint diff_from (prev : Z) (l : list Z) : list (option Z) :=
  match l with
  | [] => []
  | x :: rest => Some (x - prev)%Z :: diff_from x rest
  end.

Definition diff (l : list Z) : list (option Z) :=
  match l with
  | [] => []
  | x :: rest => None :: diff_from x rest
  end.

Module TradingStrategy.
Definition Qsum (l : list Q) : Q := foldr Qplus 0 l.

(** [rolling(window).mean()] at row [i]: undefined until [window] rows
    are available (and for an empty window). *)
Definition rolling_mean (window : nat) (closes : list Q) (i : nat)
  : option Q :=
  if (window =? 0)%nat || (S i <? window)%nat then None
  else
    Some (Qsum (take window (drop (S i - window) closes))
          / inject_Z (Z.of_nat window)).

(** [a > b] on two possibly undefined values: false when one is [nan]. *)
Definition gt_defined (a b : option Q) : bool :=
  match a, b with
  | Some x, Some y => Qltb y x
  | _, _ => false
  end.

Definition sma_signal (short_window long_window : nat) (closes : list Q)
    (i : nat) : Z :=
  let SMA_short := rolling_mean short_window closes i in
  let SMA_long := rolling_mean long_window closes i in
  (* [Signal = 0], then [1] where short > long, then [-1] where short < long *)
  if gt_defined SMA_long SMA_short then (-1)%Z
  else if gt_defined SMA_short SMA_long then 1%Z
  else 0%Z.

(** The [Signal] column of [sma_crossover]; [Position = Signal.diff()] is
    taken by the engine below, as after every strategy. *)
Definition sma_crossover (data : list Row.t)
    (short_window long_window : nat) : list Row.t :=
  let closes := map Row.Close data in
  imap (fun i r =>
          Row.mk (Row.date r) (Row.Close r)
            (sma_signal short_window long_window closes i)) data.
End TradingStrategy.

(** ** main.py: Backtester *)

Module EquityPoint.
Record t : Type := mk {
  date : Z;
  value : Q
}.
End EquityPoint.

Module BacktestResult.
(** The dictionary [run] returns, without [sharpe_ratio] (pandas and numpy
    statistics over the equity values, which never raise and which no
    other key depends on). *)
Record t : Type := mk {
  initial_capital : Q;
  final_value : Q;
  total_return : npfloat;
  total_trades : nat;
  win_rate : Q;
  max_drawdown : npfloat;
  trades : list Trade.t;
  equity_curve : list EquityPoint.t
}.
End BacktestResult.

Module Backtester.
Record t : Type := mk {
  initial_capital : Q;
  cash : Q;
  position : Z;
  trades : list Trade.t;
  equity_curve : list EquityPoint.t
}.

(** The first four assignments of [run]. *)
Definition reset (initial_capital : Q) : t :=
  mk initial_capital initial_capital 0 [] [].

Definition buy_trade (current_price : Q) (shares : Z) (cost : Q) (date : Z)
  : Trade.t :=
  Trade.mk "BUY" current_price shares cost None date None None None None None.

Definition sell_trade (current_price : Q) (shares : Z) (value profit : Q)
    (date : Z) : Trade.t :=
  Trade.mk "SELL" current_price shares value (Some profit) date
    None None None None None.

(** The trading part of one iteration, for a row whose [Position] is the
    number [p]. *)
Definition trade_on (self : t) (row : Row.t) (p : Z) : result t :=
  let current_price := Row.Close row in
  if (p =? 2)%Z && (position self =? 0)%Z then
    shares <- np_int (np_div (cash self) current_price) ;;
    if (0 <? shares)%Z then
      let cost := inject_Z shares * current_price in
      Ok (mk (initial_capital self) (cash self - cost) shares
            (trades self ++ [buy_trade current_price shares cost (Row.date row)])
            (equity_curve self))
    else Ok self
  else if (p =? -2)%Z && (0 <? position self)%Z then
    let value := inject_Z (position self) * current_price in
    let profit :=
      value - match last (trades self) with
              | Some entry => Trade.value entry
              | None => 0
              end in
    Ok (mk (initial_capital self) (cash self + value) 0
          (trades self
             ++ [sell_trade current_price (position self) value profit
                   (Row.date row)])
          (equity_curve self))
  else Ok self.

(** One iteration of [for i in range(len(data))]. *)
Definition step (self : t) (rp : Row.t * option Z) : result t :=
  match rp.2 with
  | None => Ok self (* [pd.isna(...)]: [continue] *)
  | Some p =>
      self <- trade_on self rp.1 p ;;
      let total_value :=
        cash self + inject_Z (position self) * Row.Close rp.1 in
      Ok (mk (initial_capital self) (cash self) (position self) (trades self)
            (equity_curve self
               ++ [EquityPoint.mk (Row.date rp.1) total_value]))
  end.

Fixpoint execute (self : t) (rows : list (Row.t * option Z)) : result t :=
  match rows with
  | [] => Ok self
  | rp :: rest => self <- step self rp ;; execute self rest
  end.

(** The frame with its [Position] column. *)
Definition with_position (data : list Row.t) : list (Row.t * option Z) :=
  zip data (diff (map Row.Signal data)).

(** The state of the engine when the loop has run over [data]. *)
Definition run_loop (capital : Q) (data : list Row.t) : result t :=
  execute (reset capital) (with_position data).

(** [(len(winning) / len(sells)) * 100 if self.trades else 0]: a division
    of Python integers. *)
Definition is_sell (x : Trade.t) : bool := String.eqb (Trade.type x) "SELL".

Definition is_winning (x : Trade.t) : bool :=
  is_sell x
  && Qltb 0 (match Trade.profit x with Some p => p | None => 0 end).

Definition calc_win_rate (trades : list Trade.t) : result Q :=
  let winning_trades := filter (fun x => is_winning x = true) trades in
  let sells := filter (fun x => is_sell x = true) trades in
  match trades with
  | [] => Ok 0
  | _ =>
      r <- py_div (inject_Z (Z.of_nat (length winning_trades)))
             (inject_Z (Z.of_nat (length sells))) ;;
      Ok (r * 100)
  end.

(** The body of [for value in equity_values], on the pair
    [(peak, max_drawdown)]. *)
Definition drawdown_step (acc : Q * npfloat) (value : Q) : Q * npfloat :=
  let peak := if Qltb acc.1 value then value else acc.1 in
  let drawdown := np_mul (np_div (peak - value) peak) 100 in
  (peak, if np_gtb drawdown acc.2 then drawdown else acc.2).

Definition calc_max_drawdown (equity_values : list Q) : result npfloat :=
  match equity_values with
  | [] => Raise IndexError (* [equity_values[0]] *)
  | first :: _ => Ok (foldl drawdown_step (first, Fin 0) equity_values).2
  end.

(** [run] on a [Backtester(capital)], from the point where the strategy
    has written [Signal]. *)
Definition run (capital : Q) (data : list Row.t)
  : result BacktestResult.t :=
  self <- run_loop capital data ;;
  last_row <- match last data with
              | Some r => Ok r
              | None => Raise IndexError (* [data['Close'].iloc[-1]] *)
              end ;;
  let final_value :=
    cash self + inject_Z (position self) * Row.Close last_row in
  let total_return :=
    np_mul (np_div (final_value - initial_capital self)
              (initial_capital self)) 100 in
  win_rate <- calc_win_rate (trades self) ;;
  let equity_values := map EquityPoint.value (equity_curve self) in
  max_drawdown <- calc_max_drawdown equity_values ;;
  Ok (BacktestResult.mk (initial_capital self) final_value total_return
        (length (trades self)) win_rate max_drawdown (trades self)
        (equity_curve self)).

(** [run(data, 'sma_cross', params)] *)
Definition run_sma_cross (capital : Q) (data : list Row.t)
    (short_window long_window : nat) : result BacktestResult.t :=
  run capital
    (TradingStrategy.sma_crossover data short_window long_window).
End Backtester.

(** ** Notions used to state the properties *)

(** A frame as the data provider delivers it: rows dated 0, 1, 2, ... with
    the given closing prices, before any strategy has run. *)
Definition frame (closes : list Q) : list Row.t :=
  imap (fun i c => Row.mk (Z.of_nat i) c 0) closes.

(** The engine when the loop has processed the first [n] rows of [data]. *)
Definition state_after (capital : Q) (data : list Row.t) (n : nat)
  : result Backtester.t :=
  Backtester.execute (Backtester.reset capital)
    (take n (Backtester.with_position data)).

(** The rows after the first, each with its defined [Position]. *)
Definition tail_rows (first : Row.t) (rest : list Row.t)
  : list (Row.t * option Z) :=
  zip rest (diff_from (Row.Signal first) (map Row.Signal rest)).

(** What [trade_on] can do: nothing, a BUY, or a SELL. *)
Inductive traded (self : Backtester.t) (row : Row.t) (p : Z)
  : Backtester.t -> Prop :=
| traded_none : traded self row p self
| traded_buy (shares : Z) :
    p = 2%Z ->
    Backtester.position self = 0%Z ->
    ~ Row.Close row == 0 ->
    shares = Qtrunc (Backtester.cash self / Row.Close row) ->
    (0 < shares)%Z ->
    traded self row p
      (Backtester.mk (Backtester.initial_capital self)
         (Backtester.cash self - inject_Z shares * Row.Close row) shares
         (Backtester.trades self
            ++ [Backtester.buy_trade (Row.Close row) shares
                  (inject_Z shares * Row.Close row) (Row.date row)])
         (Backtester.equity_curve self))
| traded_sell :
    p = (-2)%Z ->
    (0 < Backtester.position self)%Z ->
    traded self row p
      (Backtester.mk (Backtester.initial_capital self)
         (Backtester.cash self
          + inject_Z (Backtester.position self) * Row.Close row) 0
         (Backtester.trades self
            ++ [Backtester.sell_trade (Row.Close row)
                  (Backtester.position self)
                  (inject_Z (Backtester.position self) * Row.Close row)
                  (inject_Z (Backtester.position self) * Row.Close row
                   - match last (Backtester.trades self) with
                     | Some entry => Trade.value entry
                     | None => 0
                     end)
                  (Row.date row)])
         (Backtester.equity_curve self)).

(** The equity point appended for a row, from the state at the end of its
    iteration. *)
Definition point_of (self : Backtester.t) (row : Row.t) : EquityPoint.t :=
  EquityPoint.mk (Row.date row)
    (Backtester.cash self
     + inject_Z (Backtester.position self) * Row.Close row).

(** The calls that mutate a [RiskManager], and the instances a sequence of
    such calls goes through (the first is the instance before any call). *)
Inductive call : Type :=
| UpdateDrawdown (current_value : Q)
| ShouldEnterTrade (current_capital entry_price target_price : Q).

Definition perform (self : RiskManager.t) (c : call) : RiskManager.t :=
  match c with
  | UpdateDrawdown v => (RiskManager.update_drawdown self v).2
  | ShouldEnterTrade c e t => (RiskManager.should_enter_trade self c e t).2
  end.

Fixpoint trace (self : RiskManager.t) (calls : list call)
  : list RiskManager.t :=
  match calls with
  | [] => [self]
  | c :: rest => self :: trace (perform self c) rest
  end.

(** The drawdown of the specification: the running peak of a curve is the
    largest value so far, the drawdown at a point is the fall from the
    running peak as a percentage of it. *)
Fixpoint running_peaks_from (peak : Q) (values : list Q) : list Q :=
  match values with
  | [] => []
  | v :: rest => Qmax peak v :: running_peaks_from (Qmax peak v) rest
  end.

Definition running_peaks (values : list Q) : list Q :=
  match values with
  | [] => []
  | v :: _ => running_peaks_from v values
  end.

Definition drawdowns (values : list Q) : list Q :=
  zip_with (fun peak v => (peak - v) / peak * 100) (running_peaks values) values.

(** [m] is the maximum of [l], up to equality of rationals. *)
Definition is_maximum (m : Q) (l : list Q) : Prop :=
  (exists x, x ∈ l /\ x == m) /\ forall x, x ∈ l -> x <= m.




(** [x >= 0] for a numpy float. *)
Definition np_nonneg (x : npfloat) : Prop :=
  match x with
  | Fin q => 0 <= q
  | PInf => True
  | NInf | NaN => False
  end.

(** The drawdowns along a curve whose running peak starts at [peak]. *)
Definition drawdowns_from (peak : Q) (values : list Q) : list Q :=
  zip_with (fun peak v => (peak - v) / peak * 100)
    (running_peaks_from peak values) values.


(** A ledger of two dictionaries, a BUY at 16 and the SELL at 12 that
    closes it, and a risk manager with binary fractions (position 1/4,
    stop loss 1/8, take profit 1/2, drawdown limit 1/4). *)
Definition two_trades : store :=
  fun r =>
    match r with
    | O => Backtester.buy_trade 16 6250 100000 1
    | _ => Backtester.sell_trade 12 6250 75000 (-25000) 2
    end.

Definition binary_manager : RiskManager.t :=
  RiskManager.init 100000 0.25 0.125 0.5 0.25.

(** ** Notions used to state the further properties *)

(** What one iteration of [apply_risk_management] can do to the loop
    variables: leave store, managed list and open position alone (a
    rejected BUY, a SELL without open position, another type, or an
    exception), approve a BUY, or close the open position on a SELL. *)
Inductive arm_moved (s : ARM.state) (trade : nat) : ARM.state -> Prop :=
| arm_skip (rm' : RiskManager.t) :
    arm_moved s trade
      (ARM.mk (ARM.heap s) rm' (ARM.managed_trades s) (ARM.current_position s))
| arm_enter (rm' : RiskManager.t) (capital : Q) (ps : Z) (slp rr ml : Q) :
    Trade.type (ARM.heap s trade) = "BUY"%string ->
    RiskManager.should_enter_trade (ARM.risk_manager s) capital
      (Trade.price (ARM.heap s trade))
      (Trade.price (ARM.heap s trade)
       * (1 + RiskManager.take_profit_pct (ARM.risk_manager s)))
    = (Ok (Enter ps slp rr ml), rm') ->
    arm_moved s trade
      (ARM.mk
         (store_set (ARM.heap s) trade
            (Trade.annotate_entry (ARM.heap s trade) ps slp rr))
         rm' (ARM.managed_trades s ++ [trade]) (Some trade))
| arm_exit (cp : nat) (why : ExitReason) :
    Trade.type (ARM.heap s trade) = "SELL"%string ->
    ARM.current_position s = Some cp ->
    arm_moved s trade
      (ARM.mk
         (store_set (ARM.heap s) trade
            (Trade.annotate_exit (ARM.heap s trade) why))
         (ARM.risk_manager s) (ARM.managed_trades s ++ [trade]) None).

(** In a list of references, every SELL comes right after a BUY. *)
Definition sells_follow_buys (h : store) (l : list nat) : Prop :=
  forall (k r : nat),
    l !! k = Some r ->
    Trade.type (h r) = "SELL"%string ->
    exists b : nat,
      (1 <= k)%nat
      /\ l !! (k - 1)%nat = Some b
      /\ Trade.type (h b) = "BUY"%string.

(** The annotations of a returned trade: a BUY carries a positive position
    size, the stop-loss price of its own price and a risk/reward ratio of at
    least 2; a SELL carries an exit reason. *)
Definition annotated (stop_loss_pct : Q) (x : Trade.t) : Prop :=
  (Trade.type x = "BUY"%string ->
   exists (ps : Z) (rr : Q),
     Trade.position_size x = Some ps /\ (0 < ps)%Z
     /\ Trade.stop_loss_price x = Some (Trade.price x * (1 - stop_loss_pct))
     /\ Trade.risk_reward x = Some rr /\ 2 <= rr)
  /\ (Trade.type x = "SELL"%string -> is_Some (Trade.exit_reason x)).

(** The ledger of the engine alternates: BUY at the even places, SELL at
    the odd ones. *)
Definition alternates (ledger : list Trade.t) : Prop :=
  forall (k : nat) (x : Trade.t),
    ledger !! k = Some x ->
    Trade.type x = if Nat.even k then "BUY"%string else "SELL"%string.

(** The ledger alternates, and its parity tells whether a position is
    open. *)
Definition ledger_parity (self : Backtester.t) : Prop :=
  alternates (Backtester.trades self)
  /\ ((Backtester.position self = 0%Z
       /\ Nat.even (length (Backtester.trades self)) = true)
      \/ ((0 < Backtester.position self)%Z
          /\ Nat.even (length (Backtester.trades self)) = false)).

(** A well-formed ledger entry of the engine: a positive share count, the
    value [shares * price], and a [profit] key on a SELL only. *)
Definition well_formed_trade (x : Trade.t) : Prop :=
  (0 < Trade.shares x)%Z
  /\ Trade.value x = inject_Z (Trade.shares x) * Trade.price x
  /\ ((Trade.type x = "BUY"%string /\ Trade.profit x = None)
      \/ (Trade.type x = "SELL"%string /\ is_Some (Trade.profit x))).

(** ** Binary64: the arithmetic as the machine performs it *)

(** The exact model above decides every test and every [int()] on the
    rational value of its operands.  The program computes in binary64,
    where a quotient is rounded before [int()] truncates it and a product
    can overflow.  The sizer of [RiskManager] and the trading loop of
    [Backtester] are therefore embedded a second time, over the primitive
    binary64 numbers ([PrimFloat.float]), operation by operation; what the
    specification says of sizes and of cash is checked against this
    embedding. *)

Module Binary64.

(** Python's [int(x)]: truncation toward zero; [int(inf)] raises
    [OverflowError] and [int(nan)] raises [ValueError]. *)
Definition int (x : float) : result Z :=
  match Prim2SF x with
  | S754_nan => Raise ValueError
  | S754_infinity _ => Raise OverflowError
  | S754_zero _ => Ok 0%Z
  | S754_finite s m e => Ok (cond_Zopp s (Z.shiftl (Z.pos m) e))
  end.

(** The float an integer operand becomes in [shares * x], rounded to
    nearest, ties to even.  Every integer the program converts is the
    [int()] of a finite float, which the conversion gives back exactly. *)
Definition of_int (z : Z) : float :=
  SF2Prim (binary_normalize prec emax z 0 false).

(** Python [float] division. *)
Definition py_div (a b : float) : result float :=
  if PrimFloat.eqb b 0 then Raise ZeroDivisionError else Ok (a / b)%float.

(** [min(a, b)] of Python. *)
Definition py_min (a b : float) : float :=
  if PrimFloat.ltb b a then b else a.

Module RiskManager.
Record t : Type := mk {
  initial_capital : float;
  max_position_size : float;
  stop_loss_pct : float;
  take_profit_pct : float;
  max_drawdown_pct : float;
  peak_value : float;
  current_drawdown : float
}.

Definition init (initial_capital max_position_size stop_loss_pct
    take_profit_pct max_drawdown_pct : float) : t :=
  mk initial_capital max_position_size stop_loss_pct take_profit_pct
     max_drawdown_pct initial_capital 0.

(** [RiskManager()]: 100000, 0.2, 0.05, 0.10, 0.20, each the binary64
    number nearest to the decimal. *)
Definition default : t :=
  init 100000 0x1.999999999999ap-3 0x1.999999999999ap-5
       0x1.999999999999ap-4 0x1.999999999999ap-3.

Definition calculate_position_size (self : t)
    (current_capital current_price : float) (volatility : option float)
  : result Z :=
  let max_investment := (current_capital * max_position_size self)%float in
  q <- py_div max_investment current_price ;;
  shares <- int q ;;
  shares <-
    match volatility with
    | Some v =>
        (* [if volatility and volatility > 0] *)
        if negb (PrimFloat.eqb v 0) && PrimFloat.ltb 0 v then
          r <- py_div 1 v ;;
          let kelly_fraction := py_min 0.25 r in
          int (of_int shares * kelly_fraction)%float
        else Ok shares
    | None => Ok shares
    end ;;
  Ok (Z.max 0 shares).
End RiskManager.

Module Row.
Record t : Type := mk {
  date : Z;
  Close : float;
  Signal : Z
}.
End Row.

Module Trade.
Record t : Type := mk {
  type : string;
  price : float;
  shares : Z;
  value : float;
  profit : option float;
  date : Z
}.
End Trade.

Module Backtester.
Record t : Type := mk {
  initial_capital : float;
  cash : float;
  position : Z;
  trades : list Trade.t;
  equity_curve : list (Z * float)
}.

Definition reset (initial_capital : float) : t :=
  mk initial_capital initial_capital 0 [] [].

(** The trading part of one iteration.  [self.cash / current_price]
    divides by a numpy [float64]: no exception at a zero price, the
    quotient is [inf] or [nan] and [int()] raises. *)
Definition trade_on (self : t) (row : Row.t) (p : Z) : result t :=
  let current_price := Row.Close row in
  if (p =? 2)%Z && (position self =? 0)%Z then
    shares <- int (cash self / current_price)%float ;;
    if (0 <? shares)%Z then
      let cost := (of_int shares * current_price)%float in
      Ok (mk (initial_capital self) (cash self - cost)%float shares
            (trades self
               ++ [Trade.mk "BUY" current_price shares cost None
                     (Row.date row)])
            (equity_curve self))
    else Ok self
  else if (p =? -2)%Z && (0 <? position self)%Z then
    let value := (of_int (position self) * current_price)%float in
    let profit :=
      (value - match last (trades self) with
               | Some entry => Trade.value entry
               | None => 0
               end)%float in
    Ok (mk (initial_capital self) (cash self + value)%float 0
          (trades self
             ++ [Trade.mk "SELL" current_price (position self) value
                   (Some profit) (Row.date row)])
          (equity_curve self))
  else Ok self.

Definition step (self : t) (rp : Row.t * option Z) : result t :=
  match rp.2 with
  | None => Ok self (* [pd.isna(...)]: [continue] *)
  | Some p =>
      self <- trade_on self rp.1 p ;;
      let total_value :=
        (cash self + of_int (position self) * Row.Close rp.1)%float in
      Ok (mk (initial_capital self) (cash self) (position self) (trades self)
            (equity_curve self ++ [(Row.date rp.1, total_value)]))
  end.

Fixpoint execute (self : t) (rows : list (Row.t * option Z)) : result t :=
  match rows with
  | [] => Ok self
  | rp :: rest => self <- step self rp ;; execute self rest
  end.

Definition with_position (data : list Row.t) : list (Row.t * option Z) :=
  zip data (diff (map Row.Signal data)).

Definition run_loop (capital : float) (data : list Row.t) : result t :=
  execute (reset capital) (with_position data).
End Backtester.

(** A frame from its closes and signals, dated 0, 1, 2, ... *)
Definition frame (rows : list (float * Z)) : list Row.t :=
  imap (fun i r => Row.mk (Z.of_nat i) r.1 r.2) rows.




End Binary64.

(** ** Proof automation *)

(** Case analysis over the two tests of [update_drawdown]: the ratchet and
    the zero test of the division. *)
Ltac update_drawdown_cases :=
  unfold RiskManager.update_drawdown;
  match goal with
  | |- context [Qltb (RiskManager.peak_value ?self) ?v] =>
      destruct (Qltb (RiskManager.peak_value self) v)
  end;
  match goal with
  | |- context [py_div ?a ?b] => destruct (py_div a b)
  end.
(** * Properties *)

(** ** The model on the examples of the specification *)

(** The 1/2 crossover on closes 10, 11, 9, 12, 8: directions 0, 1, -1, 1, -1
    and change markers nan, 1, -2, 2, -2. *)
Example sma_1_2_signals :
  map Row.Signal
    (TradingStrategy.sma_crossover (frame [10; 11; 9; 12; 8]) 1 2)
  = [0; 1; -1; 1; -1]%Z
  /\ map snd
       (Backtester.with_position
          (TradingStrategy.sma_crossover (frame [10; 11; 9; 12; 8]) 1 2))
     = [None; Some 1; Some (-2); Some 2; Some (-2)]%Z.
Proof. split; vm_compute; reflexivity. Qed.

(** The only entry fires at the fourth bar (8333 shares at 12) and the exit
    at the fifth (at 8), for a loss of 33332. *)
Example sma_1_2_ledger :
  exists r,
    Backtester.run_sma_cross 100000 (frame [10; 11; 9; 12; 8]) 1 2 = Ok r
    /\ BacktestResult.trades r
       = [Backtester.buy_trade 12 8333 99996 3;
          Backtester.sell_trade 8 8333 66664 (-33332) 4]
    /\ BacktestResult.final_value r = 66668
    /\ BacktestResult.win_rate r = 0.
Proof. eexists. split; [vm_compute; reflexivity | repeat split]. Qed.

(** Sizing with the default manager: 20% of 100000 at 10 is 2000 shares,
    scaled by [min(0.25, 1/8)] under a volatility of 8. *)
Example position_size_default :
  RiskManager.calculate_position_size RiskManager.default 100000 10 None
  = Ok 2000%Z
  /\ RiskManager.calculate_position_size RiskManager.default 100000 10
       (Some 8) = Ok 250%Z.
Proof. split; reflexivity. Qed.

(** ** Arithmetic of the tests and of [int()] *)

Lemma Qltb_lt (x y : Q) : Qltb x y = true <-> x < y.
Proof.
  unfold Qltb. rewrite negb_true_iff, <- not_true_iff_false, Qle_bool_iff.
  split; [apply Qnot_le_lt | apply Qlt_not_le].
Qed.

Lemma Qltb_ge (x y : Q) : Qltb x y = false <-> y <= x.
Proof. unfold Qltb. now rewrite negb_false_iff, Qle_bool_iff. Qed.

Lemma Qeq_bool_false (x y : Q) : Qeq_bool x y = false <-> ~ x == y.
Proof. now rewrite <- not_true_iff_false, Qeq_bool_iff. Qed.

Lemma Qle_bool_false (x y : Q) : Qle_bool x y = false <-> y < x.
Proof.
  rewrite <- not_true_iff_false, Qle_bool_iff.
  split; [apply Qnot_le_lt | apply Qlt_not_le].
Qed.





Lemma py_div_ok (a b : Q) : ~ b == 0 -> py_div a b = Ok (a / b).
Proof.
  intros Hb. unfold py_div. apply Qeq_bool_false in Hb. now rewrite Hb.
Qed.

Lemma py_div_zero (a b : Q) : b == 0 -> py_div a b = Raise ZeroDivisionError.
Proof.
  intros Hb. unfold py_div. apply Qeq_bool_iff in Hb. now rewrite Hb.
Qed.

(** ** Signs in binary64 *)

Section Binary64Facts.
Import Binary64.













(** The sizer, branch by branch. *)




End Binary64Facts.

(** ** C2: the position sizer *)




(** ** C4: the entry gate at entry 100, target 105 *)

Lemma update_drawdown_stop_loss_pct (self : RiskManager.t) (v : Q) :
  RiskManager.stop_loss_pct (RiskManager.update_drawdown self v).2
  = RiskManager.stop_loss_pct self.
Proof.
  update_drawdown_cases; reflexivity.
Qed.

Lemma risk_reward_100_105 (self : RiskManager.t) (stop : Q) :
  stop == 95 ->
  exists rr,
    RiskManager.calculate_risk_reward_ratio self 100 105 stop = Ok rr
    /\ rr == 1.
Proof.
  intros Hs. unfold RiskManager.calculate_risk_reward_ratio.
  assert (Hl : 100 - stop == 5) by lra.
  assert (Hle : Qle_bool (100 - stop) 0 = false)
    by (apply Qle_bool_false; lra).
  rewrite Hle, py_div_ok by lra.
  eexists. split; [reflexivity |]. now rewrite Hl.
Qed.

(** C4 as stated fails: with the default limits and a capital of 50000
    against a peak of 100000 the entry is rejected for the drawdown, not for
    the risk/reward ratio. *)
Lemma C4_counterexample :
  RiskManager.stop_loss_pct RiskManager.default == 0.05
  /\ exists d self',
       RiskManager.should_enter_trade RiskManager.default 50000 100 105
         = (Ok d, self')
       /\ reason d = Some Maximum_drawdown_exceeded.
Proof. split; [reflexivity |]. do 2 eexists. split; reflexivity. Qed.

(** C4 (amended): with [stop_loss_pct = 0.05], [should_enter_trade(capital,
    100, 105)] computes the stop-loss price 95 and always rejects the entry;
    it runs [update_drawdown(capital)] first: when that reports
    [halt_trading] the rejection carries the maximum-drawdown reason,
    otherwise the risk/reward ratio is 1.0 and the rejection carries the
    poor-risk/reward reason. *)
Theorem C4_should_enter_rejects (self : RiskManager.t) (capital : Q) :
  RiskManager.stop_loss_pct self == 0.05 ->
  RiskManager.stop_loss_price_for self 100 == 95
  /\ (exists rr,
        RiskManager.calculate_risk_reward_ratio self 100 105
          (RiskManager.stop_loss_price_for self 100) = Ok rr
        /\ rr == 1)
  /\ forall info self',
       RiskManager.update_drawdown self capital = (Ok info, self') ->
       exists d,
         RiskManager.should_enter_trade self capital 100 105 = (Ok d, self')
         /\ enter d = false
         /\ (DrawdownInfo.halt_trading info = true ->
             reason d = Some Maximum_drawdown_exceeded)
         /\ (DrawdownInfo.halt_trading info = false ->
             exists rr, reason d = Some (Poor_risk_reward_ratio rr) /\ rr == 1).
Proof.
  intros Hpct.
  assert (Hstop : RiskManager.stop_loss_price_for self 100 == 95)
    by (unfold RiskManager.stop_loss_price_for; lra).
  split; [exact Hstop | split; [now apply risk_reward_100_105 |]].
  intros info self' Hupd. unfold RiskManager.should_enter_trade.
  rewrite Hupd.
  destruct (DrawdownInfo.halt_trading info) eqn:Hhalt.
  - eexists. split; [reflexivity |].
    split; [reflexivity | split; [reflexivity | discriminate]].
  - destruct (risk_reward_100_105 self'
                (RiskManager.stop_loss_price_for self 100) Hstop)
      as (rr & Hrr & Hone).
    rewrite Hrr. cbn [bind].
    assert (Hlt : Qltb rr 2 = true) by (apply Qltb_lt; lra).
    rewrite Hlt. eexists. split; [reflexivity |].
    split; [reflexivity | split; [discriminate |]].
    intros _. now exists rr.
Qed.

Lemma C4_should_enter_rejects_witness :
  exists d,
    RiskManager.should_enter_trade RiskManager.default 100000 100 105
      = (Ok d, (RiskManager.update_drawdown RiskManager.default 100000).2)
    /\ enter d = false
    /\ exists rr, reason d = Some (Poor_risk_reward_ratio rr) /\ rr == 1.
Proof.
  destruct (C4_should_enter_rejects RiskManager.default 100000)
    as (_ & _ & H); [reflexivity |].
  destruct (H _ _ eq_refl) as (d & Hd & He & _ & Hrr).
  exists d. split; [exact Hd | split; [exact He |]].
  apply Hrr. reflexivity.
Defined.

(** ** C10: a frame of one row *)

(** C10: on a frame of exactly one row the loop skips the row (its
    [Position] is undefined), the equity curve stays empty, and [run] raises
    [IndexError] at [equity_values[0]] instead of returning; so does the
    run through [sma_crossover]. *)
Theorem C10_single_bar_fails (capital : Q) (row : Row.t)
    (short_window long_window : nat) :
  (exists self,
     Backtester.run_loop capital [row] = Ok self
     /\ Backtester.equity_curve self = [])
  /\ Backtester.calc_max_drawdown (map EquityPoint.value []) = Raise IndexError
  /\ Backtester.run capital [row] = Raise IndexError
  /\ Backtester.run_sma_cross capital [row] short_window long_window
     = Raise IndexError.
Proof.
  split; [eexists; split; reflexivity | repeat split].
Qed.

(** ** C3: the win rate *)

Lemma count_zero (n : nat) :
  Qeq_bool (inject_Z (Z.of_nat n)) 0 = true <-> n = 0%nat.
Proof. destruct n; cbn; split; (reflexivity || discriminate). Qed.

(** With at least one SELL the win rate is the share of winning SELLs, as
    a percentage. *)
Lemma calc_win_rate_sells (trades : list Trade.t) :
  let wins := length (filter (fun x => Backtester.is_winning x = true) trades) in
  let sells := length (filter (fun x => Backtester.is_sell x = true) trades) in
  sells <> 0%nat ->
  Backtester.calc_win_rate trades
  = Ok (inject_Z (Z.of_nat wins) / inject_Z (Z.of_nat sells) * 100).
Proof.
  cbv zeta. intros Hs. unfold Backtester.calc_win_rate.
  destruct trades as [| x rest]; [now elim Hs |].
  unfold py_div.
  destruct (Qeq_bool _ 0) eqn:E; [apply count_zero in E; contradiction |].
  reflexivity.
Qed.

(** An empty ledger has win rate 0; a ledger that is not empty and holds no
    SELL raises. *)
Lemma calc_win_rate_no_sell (trades : list Trade.t) :
  filter (fun x => Backtester.is_sell x = true) trades = [] ->
  Backtester.calc_win_rate trades
  = match trades with
    | [] => Ok 0
    | _ :: _ => Raise ZeroDivisionError
    end.
Proof.
  intros Hs. unfold Backtester.calc_win_rate. rewrite Hs.
  destruct trades; reflexivity.
Qed.

(** C3 at a ledger holding one BUY and no SELL: prices 10, 9, 11 under the
    1/2 moving-average crossover open a position at the last bar, and [run]
    raises [ZeroDivisionError] in the win rate instead of returning 0. *)
Theorem C3_only_buy_raises :
  (exists self b,
     Backtester.run_loop 100000
       (TradingStrategy.sma_crossover (frame [10; 9; 11]) 1 2) = Ok self
     /\ Backtester.trades self = [b] /\ Trade.type b = "BUY"%string)
  /\ Backtester.run_sma_cross 100000 (frame [10; 9; 11]) 1 2
     = Raise ZeroDivisionError.
Proof.
  split; [do 2 eexists; split; [vm_compute; reflexivity | split; reflexivity]
         | vm_compute; reflexivity].
Qed.

(** ** C9: the drawdown ratchet *)

Lemma update_drawdown_peak (self : RiskManager.t) (v : Q) :
  RiskManager.peak_value (RiskManager.update_drawdown self v).2
  = if Qltb (RiskManager.peak_value self) v
    then v else RiskManager.peak_value self.
Proof.
  update_drawdown_cases; reflexivity.
Qed.

Lemma update_drawdown_limit (self : RiskManager.t) (v : Q) :
  RiskManager.max_drawdown_pct (RiskManager.update_drawdown self v).2
  = RiskManager.max_drawdown_pct self.
Proof.
  update_drawdown_cases; reflexivity.
Qed.

Lemma update_drawdown_peak_le (self : RiskManager.t) (v : Q) :
  RiskManager.peak_value self
  <= RiskManager.peak_value (RiskManager.update_drawdown self v).2.
Proof.
  rewrite update_drawdown_peak.
  destruct (Qltb (RiskManager.peak_value self) v) eqn:E.
  - apply Qltb_lt in E. lra.
  - lra.
Qed.

(** [should_enter_trade] touches the instance through [update_drawdown]
    only. *)
Lemma should_enter_trade_state (self : RiskManager.t) (c e t : Q) :
  (RiskManager.should_enter_trade self c e t).2
  = (RiskManager.update_drawdown self c).2.
Proof.
  unfold RiskManager.should_enter_trade.
  destruct (RiskManager.update_drawdown self c) as [[info | err] self'];
    [destruct (DrawdownInfo.halt_trading info) |]; reflexivity.
Qed.

Lemma perform_peak_le (self : RiskManager.t) (c : call) :
  RiskManager.peak_value self <= RiskManager.peak_value (perform self c).
Proof.
  destruct c as [v | c e t]; cbn [perform].
  - apply update_drawdown_peak_le.
  - rewrite should_enter_trade_state. apply update_drawdown_peak_le.
Qed.

Lemma trace_peak_ge (calls : list call) :
  forall (self s : RiskManager.t) (k : nat),
    trace self calls !! k = Some s ->
    RiskManager.peak_value self <= RiskManager.peak_value s.
Proof.
  induction calls as [| c rest IH]; intros self s k Hk.
  - destruct k as [| k]; [| destruct k; discriminate Hk].
    injection Hk as <-. lra.
  - destruct k as [| k]; cbn in Hk.
    + injection Hk as <-. lra.
    + apply IH in Hk. pose proof (perform_peak_le self c). lra.
Qed.

Lemma trace_peak_mono (calls : list call) :
  forall (self a b : RiskManager.t) (i j : nat),
    (i <= j)%nat ->
    trace self calls !! i = Some a ->
    trace self calls !! j = Some b ->
    RiskManager.peak_value a <= RiskManager.peak_value b.
Proof.
  induction calls as [| c rest IH]; intros self a b i j Hij Hi Hj.
  - destruct i as [| i]; [| destruct i; discriminate Hi].
    destruct j as [| j]; [| destruct j; discriminate Hj].
    injection Hi as <-. injection Hj as <-. lra.
  - destruct i as [| i]; cbn in Hi.
    + injection Hi as <-. eapply trace_peak_ge. exact Hj.
    + destruct j as [| j]; [lia |]. cbn in Hj.
      eapply IH; [| exact Hi | exact Hj]. lia.
Qed.

Lemma update_drawdown_returns (self : RiskManager.t) (v : Q) :
  ~ RiskManager.peak_value (RiskManager.update_drawdown self v).2 == 0 ->
  exists info,
    RiskManager.update_drawdown self v
    = (Ok info, (RiskManager.update_drawdown self v).2)
    /\ DrawdownInfo.peak_value info
       = RiskManager.peak_value (RiskManager.update_drawdown self v).2
    /\ DrawdownInfo.current_drawdown info
       = (DrawdownInfo.peak_value info - v) / DrawdownInfo.peak_value info
    /\ DrawdownInfo.max_drawdown info = RiskManager.max_drawdown_pct self
    /\ RiskManager.current_drawdown (RiskManager.update_drawdown self v).2
       = DrawdownInfo.current_drawdown info
    /\ (DrawdownInfo.halt_trading info = true
        <-> RiskManager.max_drawdown_pct self
            <= DrawdownInfo.current_drawdown info).
Proof.
  rewrite update_drawdown_peak. unfold RiskManager.update_drawdown.
  destruct (Qltb (RiskManager.peak_value self) v); intros Hnz;
    cbn [RiskManager.peak_value RiskManager.set_peak_value] in *;
    rewrite py_div_ok by exact Hnz; cbn;
    (eexists; split; [reflexivity |]); cbn;
    (split; [reflexivity | split; [reflexivity | split; [reflexivity |]]]);
    (split; [reflexivity |]); apply Qle_bool_iff.
Qed.

Lemma update_drawdown_raises (self : RiskManager.t) (v : Q) :
  RiskManager.peak_value (RiskManager.update_drawdown self v).2 == 0 ->
  (RiskManager.update_drawdown self v).1 = Raise ZeroDivisionError.
Proof.
  rewrite update_drawdown_peak. unfold RiskManager.update_drawdown.
  destruct (Qltb (RiskManager.peak_value self) v); intros Hz;
    cbn [RiskManager.peak_value RiskManager.set_peak_value] in *;
    now rewrite py_div_zero.
Qed.

(** C9: over every sequence of [update_drawdown] and [should_enter_trade]
    calls on one instance, [peak_value] never decreases; a call raises it to
    [current_value] when that exceeds it and leaves it alone otherwise; the
    dictionary a call returns carries the drawdown
    [(peak - current_value) / peak] for the peak after the ratchet, with
    [halt_trading] true exactly when that drawdown reaches the configured
    limit. A call returns whenever that peak is not zero, so always on an
    instance whose peak is positive. *)
Theorem C9_peak_ratchet :
  (forall (self : RiskManager.t) (calls : list call) (i j : nat)
          (a b : RiskManager.t),
     (i <= j)%nat ->
     trace self calls !! i = Some a ->
     trace self calls !! j = Some b ->
     RiskManager.peak_value a <= RiskManager.peak_value b)
  /\ (forall (self : RiskManager.t) (v : Q),
        let self' := (RiskManager.update_drawdown self v).2 in
        (RiskManager.peak_value self < v -> RiskManager.peak_value self' = v)
        /\ (v <= RiskManager.peak_value self ->
            RiskManager.peak_value self' = RiskManager.peak_value self)
        /\ RiskManager.max_drawdown_pct self'
           = RiskManager.max_drawdown_pct self
        /\ (forall info : DrawdownInfo.t,
              (RiskManager.update_drawdown self v).1 = Ok info ->
              DrawdownInfo.peak_value info = RiskManager.peak_value self'
              /\ DrawdownInfo.current_drawdown info
                 = (RiskManager.peak_value self' - v)
                   / RiskManager.peak_value self'
              /\ DrawdownInfo.max_drawdown info
                 = RiskManager.max_drawdown_pct self
              /\ (DrawdownInfo.halt_trading info = true
                  <-> RiskManager.max_drawdown_pct self
                      <= DrawdownInfo.current_drawdown info))
        /\ (~ RiskManager.peak_value self' == 0 ->
            exists info, (RiskManager.update_drawdown self v).1 = Ok info))
  /\ (forall (self s : RiskManager.t) (calls : list call) (k : nat) (v : Q),
        0 < RiskManager.peak_value self ->
        trace self calls !! k = Some s ->
        exists info, (RiskManager.update_drawdown s v).1 = Ok info).
Proof.
  split; [| split].
  - intros self calls i j a b. apply trace_peak_mono.
  - intros self v self'. subst self'.
    split; [| split; [| split; [apply update_drawdown_limit | split]]].
    + intros Hlt. rewrite update_drawdown_peak.
      apply Qltb_lt in Hlt. now rewrite Hlt.
    + intros Hle. rewrite update_drawdown_peak.
      apply Qltb_ge in Hle. now rewrite Hle.
    + intros info Hinfo.
      destruct (Qeq_dec
                  (RiskManager.peak_value (RiskManager.update_drawdown self v).2)
                  0) as [Hz | Hnz].
      { rewrite (update_drawdown_raises self v Hz) in Hinfo.
        discriminate Hinfo. }
      destruct (update_drawdown_returns self v Hnz)
        as (info' & Hret & Hpk & Hdd & Hlim & _ & Hhalt).
      rewrite Hret in Hinfo. injection Hinfo as <-.
      split; [exact Hpk | split; [now rewrite <- Hpk |]].
      split; [exact Hlim | exact Hhalt].
    + intros Hnz.
      destruct (update_drawdown_returns self v Hnz) as (info & Hret & _).
      exists info. now rewrite Hret.
  - intros self s calls k v Hpos Hk.
    pose proof (trace_peak_ge calls self s k Hk) as Hge.
    pose proof (update_drawdown_peak_le s v) as Hle.
    destruct (update_drawdown_returns s v) as (info & Hret & _); [lra |].
    exists info. now rewrite Hret.
Qed.

Lemma C9_peak_ratchet_witness :
  RiskManager.peak_value RiskManager.default
  <= RiskManager.peak_value
       (perform (perform RiskManager.default (UpdateDrawdown 120000))
          (ShouldEnterTrade 90000 100 105))
  /\ exists info,
       (RiskManager.update_drawdown RiskManager.default 90000).1 = Ok info
       /\ DrawdownInfo.current_drawdown info == 0.1
       /\ DrawdownInfo.halt_trading info = false.
Proof.
  destruct C9_peak_ratchet as (Hmono & Hcall & _).
  split.
  - apply (Hmono RiskManager.default
             [UpdateDrawdown 120000; ShouldEnterTrade 90000 100 105]
             0%nat 2%nat); [lia | reflexivity | reflexivity].
  - destruct (Hcall RiskManager.default 90000) as (_ & _ & _ & Hval & Hret).
    destruct Hret as (info & Hret); [discriminate |].
    destruct (Hval info Hret) as (_ & Hdd & _ & Hhalt).
    exists info. split; [exact Hret | split].
    + rewrite Hdd. reflexivity.
    + destruct (DrawdownInfo.halt_trading info); [| reflexivity].
      exfalso. destruct Hhalt as [Hh _]. specialize (Hh eq_refl).
      rewrite Hdd in Hh. revert Hh. vm_compute. intros Hh. now apply Hh.
Defined.

(** ** The frame and its [Position] column *)

Lemma diff_from_length (l : list Z) :
  forall prev, length (diff_from prev l) = length l.
Proof. induction l as [| x l IH]; intros prev; cbn; [| rewrite IH]; done. Qed.

Lemma diff_from_defined (l : list Z) :
  forall prev, Forall is_Some (diff_from prev l).
Proof.
  induction l as [| x l IH]; intros prev; cbn; constructor; [eauto | apply IH].
Qed.

Lemma with_position_cons (first : Row.t) (rest : list Row.t) :
  Backtester.with_position (first :: rest)
  = (first, None) :: tail_rows first rest.
Proof. reflexivity. Qed.

Lemma tail_rows_fst (first : Row.t) (rest : list Row.t) :
  (tail_rows first rest).*1 = rest.
Proof.
  unfold tail_rows. apply fst_zip.
  now rewrite diff_from_length, length_map.
Qed.

Lemma tail_rows_length (first : Row.t) (rest : list Row.t) :
  length (tail_rows first rest) = length rest.
Proof. now rewrite <- (tail_rows_fst first rest) at 2; rewrite length_fmap. Qed.

Lemma tail_rows_defined (first : Row.t) (rest : list Row.t) :
  Forall (fun rp => is_Some rp.2) (tail_rows first rest).
Proof.
  unfold tail_rows.
  pose proof (diff_from_defined (map Row.Signal rest) (Row.Signal first)) as H.
  revert H. generalize (diff_from (Row.Signal first) (map Row.Signal rest)).
  induction rest as [| r rest IH]; intros ds Hds; cbn; [constructor |].
  destruct ds as [| d ds]; [constructor |].
  inversion Hds; subst. constructor; [assumption | now apply IH].
Qed.

Lemma with_position_fst (data : list Row.t) :
  (Backtester.with_position data).*1 = data.
Proof.
  destruct data as [| first rest]; [reflexivity |].
  rewrite with_position_cons. cbn. now rewrite tail_rows_fst.
Qed.

Lemma with_position_length (data : list Row.t) :
  length (Backtester.with_position data) = length data.
Proof. now rewrite <- (with_position_fst data) at 2; rewrite length_fmap. Qed.

Lemma with_position_lookup (data : list Row.t) (i : nat) (row : Row.t) :
  data !! i = Some row ->
  exists pos, Backtester.with_position data !! i = Some (row, pos)
              /\ ((1 <= i)%nat -> is_Some pos).
Proof.
  intros Hi. rewrite <- (with_position_fst data), list_lookup_fmap in Hi.
  destruct (Backtester.with_position data !! i) as [[r pos] |] eqn:E;
    [| discriminate Hi].
  cbn in Hi. injection Hi as ->. exists pos. split; [reflexivity |].
  intros Hge. destruct data as [| first rest]; [discriminate E |].
  rewrite with_position_cons in E. destruct i as [| i]; [lia |]. cbn in E.
  pose proof (tail_rows_defined first rest) as Hall.
  rewrite Forall_lookup in Hall. exact (Hall i _ E).
Qed.

(** ** The loop of [run] *)

Lemma execute_app (l1 l2 : list (Row.t * option Z)) :
  forall self,
    Backtester.execute self (l1 ++ l2)
    = (mid <- Backtester.execute self l1 ;; Backtester.execute mid l2).
Proof.
  induction l1 as [| rp l1 IH]; intros self; [reflexivity |].
  cbn [app Backtester.execute].
  destruct (Backtester.step self rp) as [s | e]; cbn [bind]; [apply IH | done].
Qed.

Lemma trade_on_inv (self mid : Backtester.t) (row : Row.t) (p : Z) :
  Backtester.trade_on self row p = Ok mid -> traded self row p mid.
Proof.
  unfold Backtester.trade_on.
  destruct ((p =? 2)%Z && (Backtester.position self =? 0)%Z) eqn:Hbuy.
  - apply andb_true_iff in Hbuy as [Hp Hpos].
    apply Z.eqb_eq in Hp, Hpos. unfold np_div.
    destruct (Qeq_bool (Row.Close row) 0) eqn:Hz.
    + destruct (Qltb 0 (Backtester.cash self));
        [| destruct (Qltb (Backtester.cash self) 0)]; discriminate.
    + cbn [np_int bind]. apply Qeq_bool_false in Hz.
      destruct (0 <? Qtrunc (Backtester.cash self / Row.Close row))%Z eqn:Hs.
      * intros [= <-]. apply Z.ltb_lt in Hs. now apply traded_buy.
      * intros [= <-]. constructor.
  - destruct ((p =? -2)%Z && (0 <? Backtester.position self)%Z) eqn:Hsell.
    + apply andb_true_iff in Hsell as [Hp Hpos].
      apply Z.eqb_eq in Hp. apply Z.ltb_lt in Hpos.
      intros [= <-]. now apply traded_sell.
    + intros [= <-]. constructor.
Qed.

Lemma step_defined_inv (self self' : Backtester.t) (row : Row.t) (p : Z) :
  Backtester.step self (row, Some p) = Ok self' ->
  exists mid,
    traded self row p mid
    /\ Backtester.initial_capital self' = Backtester.initial_capital mid
    /\ Backtester.cash self' = Backtester.cash mid
    /\ Backtester.position self' = Backtester.position mid
    /\ Backtester.trades self' = Backtester.trades mid
    /\ Backtester.equity_curve self'
       = Backtester.equity_curve self ++ [point_of self' row].
Proof.
  unfold Backtester.step. cbn [fst snd].
  destruct (Backtester.trade_on self row p) as [mid | e] eqn:Ht;
    [| discriminate].
  cbn [bind]. intros [= <-]. exists mid.
  apply trade_on_inv in Ht.
  split; [exact Ht |]. cbn. repeat split.
  now destruct Ht.
Qed.

Lemma step_undefined (self : Backtester.t) (row : Row.t) :
  Backtester.step self (row, None) = Ok self.
Proof. reflexivity. Qed.

Lemma bind_ok_r {A : Type} (r : result A) : (x <- r ;; Ok x) = r.
Proof. now destruct r. Qed.

(** The curve and the ledger only grow. *)
Lemma step_grows (self self' : Backtester.t) (rp : Row.t * option Z) :
  Backtester.step self rp = Ok self' ->
  (exists pts,
     Backtester.equity_curve self' = Backtester.equity_curve self ++ pts)
  /\ exists ts, Backtester.trades self' = Backtester.trades self ++ ts.
Proof.
  destruct rp as [row [p |]].
  - intros H. apply step_defined_inv in H
      as (mid & Ht & _ & _ & _ & Htr & Hcurve).
    split; [eauto |]. rewrite Htr.
    destruct Ht; cbn; [exists []; now rewrite app_nil_r | eauto | eauto].
  - rewrite step_undefined. intros [= <-].
    split; exists []; now rewrite app_nil_r.
Qed.

Lemma execute_grows (rows : list (Row.t * option Z)) :
  forall self self',
    Backtester.execute self rows = Ok self' ->
    (exists pts,
       Backtester.equity_curve self' = Backtester.equity_curve self ++ pts)
    /\ exists ts, Backtester.trades self' = Backtester.trades self ++ ts.
Proof.
  induction rows as [| rp rows IH]; intros self self' H.
  - injection H as <-. split; exists []; now rewrite app_nil_r.
  - cbn [Backtester.execute] in H.
    destruct (Backtester.step self rp) as [mid | e] eqn:Hs; [| discriminate H].
    cbn [bind] in H.
    destruct (step_grows _ _ _ Hs) as [[p1 Hp1] [t1 Ht1]].
    destruct (IH _ _ H) as [[p2 Hp2] [t2 Ht2]].
    split; [exists (p1 ++ p2) | exists (t1 ++ t2)];
      rewrite app_assoc; congruence.
Qed.

(** Over rows whose [Position] is defined the curve gets one point a row. *)
Lemma execute_defined_curve_length (rows : list (Row.t * option Z)) :
  forall self self',
    Forall (fun rp => is_Some rp.2) rows ->
    Backtester.execute self rows = Ok self' ->
    length (Backtester.equity_curve self')
    = (length (Backtester.equity_curve self) + length rows)%nat.
Proof.
  induction rows as [| [row pos] rows IH]; intros self self' Hall H.
  - injection H as <-. cbn. lia.
  - inversion Hall as [| ? ? [p Hp] Hrest]; subst. cbn in Hp. subst pos.
    cbn [Backtester.execute] in H.
    destruct (Backtester.step self (row, Some p)) as [mid | e] eqn:Hs;
      [| discriminate H].
    cbn [bind] in H. rewrite (IH _ _ Hrest H).
    apply step_defined_inv in Hs as (_ & _ & _ & _ & _ & _ & Hc).
    rewrite Hc, length_app. cbn. lia.
Qed.

Lemma state_after_curve_length (capital : Q) (data : list Row.t) (n : nat)
    (s : Backtester.t) :
  (n <= length data)%nat ->
  state_after capital data n = Ok s ->
  length (Backtester.equity_curve s) = pred n.
Proof.
  unfold state_after. intros Hn H.
  destruct n as [| n]; [injection H as <-; reflexivity |].
  destruct data as [| first rest]; [cbn in Hn; lia |].
  rewrite with_position_cons in H. cbn [take Backtester.execute] in H.
  rewrite step_undefined in H. cbn [bind] in H.
  apply execute_defined_curve_length in H;
    [| apply Forall_take, tail_rows_defined].
  rewrite H, length_take, tail_rows_length. cbn in *. lia.
Qed.

Lemma state_after_all (capital : Q) (data : list Row.t) (n : nat) :
  (length data <= n)%nat ->
  state_after capital data n = Backtester.run_loop capital data.
Proof.
  intros Hn. unfold state_after, Backtester.run_loop.
  now rewrite take_ge by (rewrite with_position_length; lia).
Qed.

Lemma state_after_S (capital : Q) (data : list Row.t) (n : nat)
    (rp : Row.t * option Z) :
  Backtester.with_position data !! n = Some rp ->
  state_after capital data (S n)
  = (s <- state_after capital data n ;; Backtester.step s rp).
Proof.
  intros Hn. unfold state_after.
  rewrite (take_S_r _ _ _ Hn), execute_app.
  destruct (Backtester.execute (Backtester.reset capital)
              (take n (Backtester.with_position data))) as [s | e];
    [| reflexivity].
  cbn [bind Backtester.execute]. apply bind_ok_r.
Qed.

(** A run that completes went through every intermediate state. *)
Lemma run_loop_split (capital : Q) (data : list Row.t) (self : Backtester.t)
    (n : nat) :
  Backtester.run_loop capital data = Ok self ->
  exists s,
    state_after capital data n = Ok s
    /\ Backtester.execute s (drop n (Backtester.with_position data)) = Ok self.
Proof.
  unfold Backtester.run_loop, state_after. intros H.
  rewrite <- (take_drop n (Backtester.with_position data)) in H at 1.
  rewrite execute_app in H.
  destruct (Backtester.execute (Backtester.reset capital)
              (take n (Backtester.with_position data))) as [s | e];
    [| discriminate H].
  exists s. split; [reflexivity | exact H].
Qed.

Lemma run_trades (capital : Q) (data : list Row.t) (r : BacktestResult.t) :
  Backtester.run capital data = Ok r ->
  exists self,
    Backtester.run_loop capital data = Ok self
    /\ BacktestResult.trades r = Backtester.trades self
    /\ BacktestResult.equity_curve r = Backtester.equity_curve self
    /\ Backtester.calc_max_drawdown
         (map EquityPoint.value (Backtester.equity_curve self))
       = Ok (BacktestResult.max_drawdown r)
    /\ Backtester.calc_win_rate (Backtester.trades self)
       = Ok (BacktestResult.win_rate r).
Proof.
  unfold Backtester.run. intros Hr.
  destruct (Backtester.run_loop capital data) as [self | e]; [| discriminate Hr].
  cbn [bind] in Hr. exists self. split; [reflexivity |].
  destruct (last data); [| discriminate Hr]. cbn [bind] in Hr.
  destruct (Backtester.calc_win_rate (Backtester.trades self));
    [| discriminate Hr].
  cbn [bind] in Hr.
  destruct (Backtester.calc_max_drawdown _); [| discriminate Hr].
  injection Hr as <-. repeat split.
Qed.

Lemma run_loop_curve_length (capital : Q) (data : list Row.t)
    (self : Backtester.t) :
  Backtester.run_loop capital data = Ok self ->
  length (Backtester.equity_curve self) = pred (length data).
Proof.
  intros Hrun.
  rewrite <- (state_after_all capital data (length data)) in Hrun by lia.
  now apply state_after_curve_length in Hrun.
Qed.

Lemma run_loop_curve_lookup (capital : Q) (data : list Row.t)
    (self : Backtester.t) (i : nat) (row : Row.t) :
  Backtester.run_loop capital data = Ok self ->
  (1 <= i)%nat ->
  data !! i = Some row ->
  exists s,
    state_after capital data (S i) = Ok s
    /\ Backtester.equity_curve self !! (i - 1)%nat = Some (point_of s row).
Proof.
  intros Hrun Hi Hrow.
  destruct (with_position_lookup data i row Hrow) as (pos & Hpos & Hdef).
  destruct (Hdef Hi) as [p ->].
  destruct (run_loop_split capital data self (S i) Hrun) as (s & Hs & Hrest).
  exists s. split; [exact Hs |].
  rewrite (state_after_S _ _ _ _ Hpos) in Hs.
  destruct (state_after capital data i) as [s0 | e] eqn:Hs0;
    [| discriminate Hs].
  cbn [bind] in Hs.
  apply state_after_curve_length in Hs0;
    [| apply Nat.lt_le_incl; eapply lookup_lt_Some; exact Hrow].
  apply step_defined_inv in Hs as (_ & _ & _ & _ & _ & _ & Hc).
  apply execute_grows in Hrest as [[pts Hpts] _].
  rewrite Hpts, Hc.
  rewrite lookup_app_l by (rewrite length_app; cbn; lia).
  rewrite lookup_app_r by lia.
  replace (i - 1 - length (Backtester.equity_curve s0))%nat with 0%nat
    by lia.
  reflexivity.
Qed.

(** ** C1: the equity curve *)

(** C1 as stated fails: two bars give a curve of one point (under the
    default 20/50 crossover no trade occurs and [run] returns). *)
Lemma C1_counterexample :
  exists r,
    Backtester.run_sma_cross 100000 (frame [10; 9]) 20 50 = Ok r
    /\ length (frame [10; 9]) = 2%nat
    /\ length (BacktestResult.equity_curve r) = 1%nat.
Proof. eexists. split; [vm_compute; reflexivity | split; reflexivity]. Qed.

(** C1 (amended): the loop appends one equity point for every bar but the
    first, whose change marker is undefined and which is skipped: a frame of
    [n] bars gives [n - 1] points, whether or not a trade occurred; the
    point of bar [i >= 1] is at index [i - 1], carries the bar's date, and
    its value is the cash after processing bar [i] plus the share count held
    then times the bar's close. [run] returns this curve. *)
Theorem C1_equity_curve (capital : Q) (data : list Row.t)
    (self : Backtester.t) :
  Backtester.run_loop capital data = Ok self ->
  length (Backtester.equity_curve self) = pred (length data)
  /\ (forall (i : nat) (row : Row.t),
        (1 <= i)%nat ->
        data !! i = Some row ->
        exists s,
          state_after capital data (S i) = Ok s
          /\ Backtester.equity_curve self !! (i - 1)%nat
             = Some (EquityPoint.mk (Row.date row)
                       (Backtester.cash s
                        + inject_Z (Backtester.position s) * Row.Close row)))
  /\ forall r,
       Backtester.run capital data = Ok r ->
       BacktestResult.equity_curve r = Backtester.equity_curve self.
Proof.
  intros Hrun. split; [| split].
  - exact (run_loop_curve_length capital data self Hrun).
  - intros i row Hi Hrow.
    exact (run_loop_curve_lookup capital data self i row Hrun Hi Hrow).
  - intros r Hr. apply run_trades in Hr as (self' & Hrun' & _ & Hcurve & _).
    rewrite Hrun in Hrun'. injection Hrun' as <-. exact Hcurve.
Qed.

Lemma C1_equity_curve_witness :
  exists self,
    Backtester.run_loop 100000
      (TradingStrategy.sma_crossover (frame [10; 11; 9; 12; 8]) 1 2) = Ok self
    /\ length (Backtester.equity_curve self) = 4%nat
    /\ Backtester.equity_curve self !! 3%nat = Some (EquityPoint.mk 4 66668).
Proof.
  pose (data := TradingStrategy.sma_crossover (frame [10; 11; 9; 12; 8]) 1 2).
  destruct (Backtester.run_loop 100000 data) as [self | e] eqn:Hrun;
    [| vm_compute in Hrun; discriminate Hrun].
  exists self. split; [exact Hrun |].
  destruct (C1_equity_curve 100000 data self Hrun) as (Hlen & Hpt & _).
  split; [exact Hlen |].
  destruct (Hpt 4%nat (Row.mk 4 8 (-1)) ltac:(lia) eq_refl) as (s & Hs & Hlook).
  vm_compute in Hs. injection Hs as <-. exact Hlook.
Defined.

(** ** C7: the profit of a SELL *)









(** ** C8: cash after a BUY *)

(** C8 (not kept by the code): on the closes 6000, 5000,
    5882.352941176471, all positive, run with [sma_cross] on windows 1 and
    2 and a capital of 100000, the signals are 0, -1, 1 and the last bar
    buys.  The quotient [100000 / 5882.352941176471] is just under 17 and
    rounds to 17.0, so [int()] sizes 17 shares; their cost
    [17 * 5882.352941176471] rounds to 100000.00000000001, and
    [self.cash -= cost] leaves [-1.4551915228366852e-11]: the cash is
    negative after the BUY. *)
Theorem C8_buy_overdraws :
  let close := 0x1.6fa5a5a5a5a5bp+12%float in
  let data := Binary64.frame [(6000%float, 0%Z); (5000%float, (-1)%Z);
                              (close, 1%Z)] in
  map Row.Signal
    (TradingStrategy.sma_crossover (frame [6000; 5000; 5882.352941176471])
       1 2)
  = [0; -1; 1]%Z
  /\ Forall (fun row => PrimFloat.ltb 0 (Binary64.Row.Close row) = true) data
  /\ Binary64.int (100000 / close) = Ok 17%Z
  /\ exists self buy,
       Binary64.Backtester.run_loop 100000 data = Ok self
       /\ Binary64.Backtester.position self = 17%Z
       /\ Binary64.Backtester.trades self = [buy]
       /\ Binary64.Trade.type buy = "BUY"%string
       /\ Binary64.Trade.shares buy = 17%Z
       /\ Binary64.Trade.value buy = 0x1.86a0000000001p+16%float
       /\ Binary64.Backtester.cash self = (-0x1p-36)%float
       /\ PrimFloat.ltb (Binary64.Backtester.cash self) 0 = true.
Proof.
  cbv zeta.
  split; [vm_compute; reflexivity |].
  split; [repeat constructor |].
  split; [vm_compute; reflexivity |].
  eexists. eexists.
  split; [vm_compute; reflexivity |].
  repeat split.
Qed.

(** ** C6: the maximum drawdown *)

Lemma Qmax_ltb (a b : Q) : Qmax a b = if Qltb a b then b else a.
Proof.
  unfold Qmax, GenericMinMax.gmax.
  destruct (Qltb a b) eqn:E.
  - apply Qltb_lt in E. rewrite Qlt_alt in E. now rewrite E.
  - apply Qltb_ge in E. rewrite Qle_alt in E.
    rewrite <- Qcompare_antisym.
    destruct (b ?= a); [reflexivity | reflexivity | now elim E].
Qed.

Lemma np_gtb_nonneg (d m : npfloat) :
  np_gtb d m = true -> np_nonneg m -> np_nonneg d.
Proof.
  destruct d as [a | | |], m as [b | | |]; cbn; try discriminate; try tauto.
  intros H Hb. apply Qltb_lt in H. lra.
Qed.

Lemma scan_nonneg (values : list Q) :
  forall acc : Q * npfloat,
    np_nonneg acc.2 ->
    np_nonneg (foldl Backtester.drawdown_step acc values).2.
Proof.
  induction values as [| v values IH]; intros acc Hacc; [exact Hacc |].
  cbn [foldl]. apply IH. unfold Backtester.drawdown_step. cbn [snd].
  match goal with |- context [np_gtb ?d ?m] => destruct (np_gtb d m) eqn:E end.
  - exact (np_gtb_nonneg _ _ E Hacc).
  - exact Hacc.
Qed.

(** The scan from a peak and a maximum so far, when no running peak is 0:
    the result is the larger of the maximum so far and the drawdowns. *)
Lemma scan_from (values : list Q) :
  forall peak m : Q,
    Forall (fun p => ~ p == 0) (running_peaks_from peak values) ->
    exists m' : Q,
      (foldl Backtester.drawdown_step (peak, Fin m) values).2 = Fin m'
      /\ m <= m'
      /\ (forall x, x ∈ drawdowns_from peak values -> x <= m')
      /\ (m' = m \/ exists x, x ∈ drawdowns_from peak values /\ x == m').
Proof.
  induction values as [| v values IH]; intros peak m Hnz.
  - exists m. cbn. split; [reflexivity | split; [lra |]].
    split; [| now left]. intros x Hx. inversion Hx.
  - cbn [running_peaks_from] in Hnz.
    inversion Hnz as [| ? ? Hpk Hrest]; subst.
    cbn [foldl]. unfold Backtester.drawdown_step at 2. cbn [fst snd].
    rewrite <- Qmax_ltb. unfold np_div.
    apply Qeq_bool_false in Hpk. rewrite Hpk.
    cbn [np_mul np_gtb].
    set (d := (Qmax peak v - v) / Qmax peak v * 100).
    assert (Hdd : drawdowns_from peak (v :: values)
                  = d :: drawdowns_from (Qmax peak v) values) by reflexivity.
    rewrite Hdd.
    destruct (Qltb m d) eqn:Hmd.
    + apply Qltb_lt in Hmd.
      destruct (IH (Qmax peak v) d Hrest) as (m' & Hres & Hle & Hall & Hex).
      exists m'. split; [exact Hres | split; [lra |]]. split.
      * intros x Hx. apply elem_of_cons in Hx as [-> | Hx]; [lra | now apply Hall].
      * right. destruct Hex as [-> | (x & Hx & Hxm)].
        -- exists d. split; [apply list_elem_of_here | reflexivity].
        -- exists x. split; [now apply list_elem_of_further | exact Hxm].
    + apply Qltb_ge in Hmd.
      destruct (IH (Qmax peak v) m Hrest) as (m' & Hres & Hle & Hall & Hex).
      exists m'. split; [exact Hres | split; [lra |]]. split.
      * intros x Hx. apply elem_of_cons in Hx as [-> | Hx]; [lra | now apply Hall].
      * destruct Hex as [-> | (x & Hx & Hxm)]; [now left | right].
        exists x. split; [now apply list_elem_of_further | exact Hxm].
Qed.

Lemma calc_max_drawdown_spec (values : list Q) (x : npfloat) :
  Backtester.calc_max_drawdown values = Ok x ->
  Forall (fun p => ~ p == 0) (running_peaks values) ->
  exists m : Q, x = Fin m /\ 0 <= m /\ is_maximum m (drawdowns values).
Proof.
  destruct values as [| first rest]; [discriminate |].
  cbn [Backtester.calc_max_drawdown running_peaks]. intros [= <-] Hnz.
  destruct (scan_from (first :: rest) first 0 Hnz)
    as (m & Hres & Hle & Hall & Hex).
  exists m. split; [exact Hres | split; [exact Hle |]].
  split; [| exact Hall].
  destruct Hex as [-> | Hex]; [| exact Hex].
  cbn [running_peaks_from] in Hnz. inversion Hnz as [| ? ? Hpk _]; subst.
  exists ((Qmax first first - first) / Qmax first first * 100).
  split; [apply list_elem_of_here |].
  rewrite Qmax_ltb in *.
  assert (Hirr : Qltb first first = false) by (apply Qltb_ge; lra).
  rewrite Hirr in *. field. exact Hpk.
Qed.

Lemma running_peaks_from_ge (values : list Q) :
  forall peak x : Q,
    x ∈ running_peaks_from peak values -> peak <= x.
Proof.
  induction values as [| v values IH]; intros peak x Hx; [inversion Hx |].
  cbn [running_peaks_from] in Hx.
  pose proof (Q.le_max_l peak v) as Hmax.
  apply elem_of_cons in Hx as [-> | Hx]; [exact Hmax |].
  apply IH in Hx. lra.
Qed.

(** The first equity point is worth the initial capital. *)
Lemma first_point_value (capital : Q) (data : list Row.t)
    (self : Backtester.t) (pt : EquityPoint.t) :
  Backtester.run_loop capital data = Ok self ->
  Backtester.equity_curve self !! 0%nat = Some pt ->
  EquityPoint.value pt == capital.
Proof.
  intros Hrun Hpt.
  pose proof (run_loop_curve_length capital data self Hrun) as Hlen.
  apply lookup_lt_Some in Hpt as Hlt.
  destruct (data !! 1%nat) as [row |] eqn:Hrow;
    [| apply lookup_ge_None in Hrow; lia].
  destruct (run_loop_curve_lookup capital data self 1 row Hrun ltac:(lia) Hrow)
    as (s & Hs & Hlook).
  cbn in Hlook. rewrite Hpt in Hlook. injection Hlook as ->.
  destruct (with_position_lookup data 1 row Hrow) as (pos & Hpos & Hdef).
  destruct (Hdef ltac:(lia)) as [p ->].
  rewrite (state_after_S _ _ _ _ Hpos) in Hs.
  assert (H1 : state_after capital data 1 = Ok (Backtester.reset capital)).
  { unfold state_after. destruct data as [| first rest]; [discriminate Hrow |].
    reflexivity. }
  rewrite H1 in Hs. cbn [bind] in Hs.
  apply step_defined_inv in Hs as (mid & Ht & _ & Hcash & Hposn & _).
  unfold point_of. cbn [EquityPoint.value]. rewrite Hcash, Hposn.
  destruct Ht as [| shares Hp Hz Hnz Hs Hgt | Hp Hgt]; cbn in *.
  - ring.
  - ring.
  - lia.
Qed.

(** C6: the [max_drawdown] a run returns is never negative; whenever the
    drawdowns are defined (no running peak of the equity curve is 0) it is
    the maximum, over the curve, of (running peak - value) / running peak
    as a percentage, the running peak being taken left to right; with a
    positive initial capital every running peak is positive. On the values
    100, 120, 90, 110 the running peaks are 100, 120, 120, 120 and the
    maximum drawdown is 25. *)
Theorem C6_max_drawdown (capital : Q) (data : list Row.t)
    (r : BacktestResult.t) :
  Backtester.run capital data = Ok r ->
  let values := map EquityPoint.value (BacktestResult.equity_curve r) in
  np_nonneg (BacktestResult.max_drawdown r)
  /\ (Forall (fun p => ~ p == 0) (running_peaks values) ->
      exists m : Q,
        BacktestResult.max_drawdown r = Fin m
        /\ 0 <= m
        /\ is_maximum m (drawdowns values))
  /\ (0 < capital -> Forall (fun p => 0 < p) (running_peaks values))
  /\ running_peaks [100; 120; 90; 110] = [100; 120; 120; 120]
  /\ exists m : Q,
       Backtester.calc_max_drawdown [100; 120; 90; 110] = Ok (Fin m)
       /\ m == 25.
Proof.
  intros Hr values. subst values.
  apply run_trades in Hr as (self & Hrun & _ & Hcurve & Hmax & _).
  rewrite Hcurve.
  split; [| split; [| split; [| split]]].
  - unfold Backtester.calc_max_drawdown in Hmax.
    destruct (map EquityPoint.value (Backtester.equity_curve self))
      as [| first rest]; [discriminate Hmax |].
    injection Hmax as <-.
    apply (scan_nonneg (first :: rest) (first, Fin 0)). apply Qle_refl.
  - intros Hnz. exact (calc_max_drawdown_spec _ _ Hmax Hnz).
  - intros Hcap.
    destruct (Backtester.equity_curve self) as [| pt pts] eqn:Hpts;
      [constructor |].
    assert (Hfirst : EquityPoint.value pt == capital).
    { apply (first_point_value capital data self pt Hrun).
      now rewrite Hpts. }
    cbn [map running_peaks]. apply Forall_forall. intros x Hx.
    apply running_peaks_from_ge in Hx. lra.
  - reflexivity.
  - eexists. split; [reflexivity | reflexivity].
Qed.

Lemma C6_max_drawdown_witness :
  exists r m,
    Backtester.run_sma_cross 100000 (frame [10; 11; 9; 12; 8]) 1 2 = Ok r
    /\ BacktestResult.max_drawdown r = Fin m
    /\ m == 33.332
    /\ is_maximum m
         (drawdowns (map EquityPoint.value (BacktestResult.equity_curve r))).
Proof.
  pose (data := TradingStrategy.sma_crossover (frame [10; 11; 9; 12; 8]) 1 2).
  destruct (Backtester.run 100000 data) as [r | e] eqn:Hrun;
    [| vm_compute in Hrun; discriminate Hrun].
  destruct (C6_max_drawdown 100000 data r Hrun) as (_ & Hmax & Hpos & _).
  destruct Hmax as (m & Hm & _ & His).
  { eapply Forall_impl; [apply Hpos; reflexivity |].
    cbn. intros x Hx Hz. rewrite Hz in Hx. discriminate Hx. }
  exists r, m. split; [exact Hrun | split; [exact Hm | split; [| exact His]]].
  vm_compute in Hrun. injection Hrun as <-. cbn in Hm.
  injection Hm as <-. reflexivity.
Defined.

(** ** C5: apply_risk_management *)

Lemma store_set_entry_core (h : store) (trade r : nat) (ps : Z) (slp rr : Q) :
  Trade.core (store_set h trade (Trade.annotate_entry (h trade) ps slp rr) r)
  = Trade.core (h r).
Proof.
  unfold store_set. destruct (Nat.eqb_spec r trade) as [-> | _]; reflexivity.
Qed.

Lemma store_set_exit_core (h : store) (trade r : nat) (why : ExitReason) :
  Trade.core (store_set h trade (Trade.annotate_exit (h trade) why) r)
  = Trade.core (h r).
Proof.
  unfold store_set. destruct (Nat.eqb_spec r trade) as [-> | _]; reflexivity.
Qed.

Lemma store_set_other (h : store) (trade r : nat) (x : Trade.t) :
  r <> trade -> store_set h trade x r = h r.
Proof.
  intros Hne. unfold store_set.
  destruct (Nat.eqb_spec r trade); [contradiction | reflexivity].
Qed.

Lemma should_enter_trade_peak_le (self : RiskManager.t) (c e t : Q) :
  RiskManager.peak_value self
  <= RiskManager.peak_value (RiskManager.should_enter_trade self c e t).2.
Proof. rewrite should_enter_trade_state. apply update_drawdown_peak_le. Qed.

(** A loss that is positive needs a non-zero entry price. *)
Lemma potential_loss_entry (self : RiskManager.t) (e : Q) :
  Qle_bool (e - RiskManager.stop_loss_price_for self e) 0 = false ->
  ~ e == 0.
Proof.
  intros Hpl Hz. apply Qle_bool_false in Hpl.
  unfold RiskManager.stop_loss_price_for in Hpl. rewrite Hz in Hpl. lra.
Qed.

Lemma risk_reward_total (self : RiskManager.t) (e t : Q) :
  exists rr,
    RiskManager.calculate_risk_reward_ratio self e t
      (RiskManager.stop_loss_price_for self e) = Ok rr
    /\ (Qltb rr 2 = false -> ~ e == 0).
Proof.
  unfold RiskManager.calculate_risk_reward_ratio.
  destruct (Qle_bool (e - RiskManager.stop_loss_price_for self e) 0) eqn:Hpl.
  - exists 0. split; [reflexivity | discriminate].
  - pose proof (potential_loss_entry self e Hpl) as He.
    apply Qle_bool_false in Hpl. rewrite py_div_ok by lra.
    eexists. split; [reflexivity | intros _; exact He].
Qed.


(** What one iteration changes: annotations in the store, at most the
    current trade appended to the managed list, the ratchet of the risk
    manager. *)
Lemma apply_risk_management_step_spec (s : ARM.state) (trade : nat) :
  let s' := (apply_risk_management_step s trade).2 in
  (forall r, Trade.core (ARM.heap s' r) = Trade.core (ARM.heap s r))
  /\ ((ARM.managed_trades s' = ARM.managed_trades s
       /\ forall r, ARM.heap s' r = ARM.heap s r)
      \/ (ARM.managed_trades s' = ARM.managed_trades s ++ [trade]
          /\ forall r, r <> trade -> ARM.heap s' r = ARM.heap s r))
  /\ RiskManager.peak_value (ARM.risk_manager s)
     <= RiskManager.peak_value (ARM.risk_manager s').
Proof.
  unfold apply_risk_management_step. cbv zeta.
  destruct (String.eqb (Trade.type (ARM.heap s trade)) "BUY").
  - match goal with
    | |- context [RiskManager.should_enter_trade ?a ?b ?c ?d] =>
        pose proof (should_enter_trade_peak_le a b c d) as Hpk;
        destruct (RiskManager.should_enter_trade a b c d) as [[dec | err] rm']
    end; cbn [snd] in Hpk; [destruct dec |]; cbn;
      (split; [intros r; try reflexivity; apply store_set_entry_core |]);
      (split; [| exact Hpk]);
      try (left; split; [reflexivity | reflexivity]).
    right. split; [reflexivity |]. intros r Hr. now apply store_set_other.
  - destruct (String.eqb (Trade.type (ARM.heap s trade)) "SELL");
      [destruct (ARM.current_position s) as [cp |] |];
      try (cbn; split; [reflexivity | split; [now left | lra]]).
    match goal with
    | |- context [bind ?a ?k] => destruct (bind a k) as [why | err]
    end; cbn.
    + split; [intros r; apply store_set_exit_core |].
      split; [| lra]. right. split; [reflexivity |].
      intros r Hr. now apply store_set_other.
    + split; [reflexivity | split; [now left | lra]].
Qed.






(** * Further properties of the code *)

(** ** RiskManager: the exit triggers *)

(** X3: the two exit triggers exclude each other. When
    [stop_loss_pct + take_profit_pct] is positive, no pair of prices makes
    both [check_stop_loss] and [check_take_profit] true, so the order of the
    two tests in [apply_risk_management] decides nothing. *)
Theorem X3_triggers_exclusive (self : RiskManager.t)
    (entry_price current_price : Q) :
  0 < RiskManager.stop_loss_pct self + RiskManager.take_profit_pct self ->
  RiskManager.check_stop_loss self entry_price current_price = Ok true ->
  RiskManager.check_take_profit self entry_price current_price = Ok true ->
  False.
Proof.
  unfold RiskManager.check_stop_loss, RiskManager.check_take_profit, py_div.
  intros Hpos. destruct (Qeq_bool entry_price 0) eqn:Hz; [discriminate |].
  apply Qeq_bool_false in Hz. cbn [bind]. intros [= Hs] [= Ht].
  apply Qle_bool_iff in Hs, Ht.
  assert (E : (current_price - entry_price) / entry_price
              == - ((entry_price - current_price) / entry_price))
    by (field; exact Hz).
  rewrite E in Ht. lra.
Qed.

Lemma X3_triggers_exclusive_witness :
  RiskManager.check_stop_loss RiskManager.default 100 90 = Ok true
  /\ RiskManager.check_take_profit RiskManager.default 100 90 <> Ok true.
Proof.
  split; [reflexivity |]. intros H.
  apply (X3_triggers_exclusive RiskManager.default 100 90);
    [reflexivity | reflexivity | exact H].
Defined.

(** ** RiskManager: the entry gate and the sizer *)

(** X5: the drawdown of a manager whose peak is positive. The call returns,
    the drawdown is never negative, it is at most 1 when the current value
    is not negative, and it is 0 at a new high (a value at or above the
    peak), where trading halts only under a limit that is not positive. *)
Theorem X5_drawdown_range (self : RiskManager.t) (current_value : Q) :
  0 < RiskManager.peak_value self ->
  exists info : DrawdownInfo.t,
    (RiskManager.update_drawdown self current_value).1 = Ok info
    /\ 0 <= DrawdownInfo.current_drawdown info
    /\ (0 <= current_value -> DrawdownInfo.current_drawdown info <= 1)
    /\ (RiskManager.peak_value self <= current_value ->
        DrawdownInfo.current_drawdown info == 0
        /\ (DrawdownInfo.halt_trading info = true
            <-> RiskManager.max_drawdown_pct self <= 0)).
Proof.
  intros Hpk.
  pose proof (update_drawdown_peak_le self current_value) as Hle.
  pose proof (update_drawdown_peak self current_value) as Hpeak.
  destruct (update_drawdown_returns self current_value)
    as (info & Hret & Hp & Hdd & _ & _ & Hhalt); [lra |].
  exists info. rewrite Hret. split; [reflexivity |].
  set (pk := RiskManager.peak_value
               (RiskManager.update_drawdown self current_value).2) in *.
  assert (Hpos : 0 < pk) by lra.
  assert (Hge : current_value <= pk).
  { subst pk. rewrite Hpeak.
    destruct (Qltb (RiskManager.peak_value self) current_value) eqn:E;
      [lra | now apply Qltb_ge in E]. }
  rewrite Hdd, Hp. split; [| split].
  - apply Qle_shift_div_l; [exact Hpos | lra].
  - intros Hv. apply Qle_shift_div_r; [exact Hpos | lra].
  - intros Hhigh.
    assert (Heq : pk == current_value).
    { subst pk. rewrite Hpeak.
      destruct (Qltb (RiskManager.peak_value self) current_value) eqn:E;
        [reflexivity | apply Qltb_ge in E; lra]. }
    assert (Hzero : (pk - current_value) / pk == 0)
      by (rewrite Heq; field; lra).
    split; [exact Hzero |].
    rewrite Hhalt, Hdd, Hp, Hzero. reflexivity.
Qed.

Lemma X5_drawdown_range_witness :
  exists info : DrawdownInfo.t,
    (RiskManager.update_drawdown RiskManager.default 120000).1 = Ok info
    /\ DrawdownInfo.current_drawdown info == 0
    /\ DrawdownInfo.halt_trading info <> true.
Proof.
  destruct (X5_drawdown_range RiskManager.default 120000)
    as (info & Hret & _ & _ & Hhigh); [reflexivity |].
  destruct Hhigh as [Hz Hhalt]; [discriminate |].
  exists info. split; [exact Hret | split; [exact Hz |]].
  intros H. apply Hhalt in H. revert H. vm_compute. intros H. now apply H.
Defined.

Lemma update_drawdown_max_position_size (self : RiskManager.t) (v : Q) :
  RiskManager.max_position_size (RiskManager.update_drawdown self v).2
  = RiskManager.max_position_size self.
Proof. update_drawdown_cases; reflexivity. Qed.



Lemma inject_Z_nonneg (z : Z) : (0 <= z)%Z -> 0 <= inject_Z z.
Proof. intros H. change 0 with (inject_Z 0). now rewrite <- Zle_Qle. Qed.


(** The sizer at a non-zero price, case by case on the volatility. *)
Lemma position_size_cases (self : RiskManager.t) (capital price : Q)
    (volatility : option Q) :
  ~ price == 0 ->
  let t := Qtrunc (capital * RiskManager.max_position_size self / price) in
  RiskManager.calculate_position_size self capital price volatility
  = Ok (Z.max 0
          match volatility with
          | Some v =>
              if Qltb 0 v
              then Qtrunc (inject_Z t * py_min 0.25 (1 / v)) else t
          | None => t
          end).
Proof.
  intros Hp. cbv zeta. unfold RiskManager.calculate_position_size.
  rewrite py_div_ok by exact Hp. cbn [bind].
  destruct volatility as [v |]; [| reflexivity].
  destruct (Qltb 0 v) eqn:Hv.
  - apply Qltb_lt in Hv as Hv'.
    assert (Hnz : Qeq_bool v 0 = false) by (apply Qeq_bool_false; lra).
    rewrite Hnz. cbn [negb andb]. rewrite py_div_ok by lra. reflexivity.
  - rewrite andb_false_r. reflexivity.
Qed.

Lemma approved_entry_facts (self : RiskManager.t)
    (capital entry target : Q) (ps : Z) (slp rr ml : Q) :
  (RiskManager.should_enter_trade self capital entry target).1
  = Ok (Enter ps slp rr ml) ->
  (0 < ps)%Z
  /\ 2 <= rr
  /\ slp = RiskManager.stop_loss_price_for self entry
  /\ ml = inject_Z ps * entry * RiskManager.stop_loss_pct self
  /\ RiskManager.current_drawdown
       (RiskManager.should_enter_trade self capital entry target).2
     < RiskManager.max_drawdown_pct self.
Proof.
  rewrite should_enter_trade_state.
  unfold RiskManager.should_enter_trade.
  pose proof (update_drawdown_raises self capital) as Hraise.
  pose proof (update_drawdown_returns self capital) as Hret.
  pose proof (update_drawdown_max_position_size self capital) as Hmps.
  pose proof (update_drawdown_stop_loss_pct self capital) as Hsl.
  destruct (RiskManager.update_drawdown self capital) as [[info | err] self']
    eqn:Hupd; cbn [fst snd] in *; [| discriminate].
  destruct Hret as (info' & Hinfo & _ & _ & _ & Hcur & Hhalt).
  { intros Hz. specialize (Hraise Hz). discriminate Hraise. }
  injection Hinfo as <-.
  destruct (DrawdownInfo.halt_trading info) eqn:Hh; [discriminate |].
  destruct (risk_reward_total self' entry target) as (rr' & Hrr & Hnz).
  unfold RiskManager.stop_loss_price_for in Hrr at 1. rewrite Hsl in Hrr.
  fold (RiskManager.stop_loss_price_for self entry) in Hrr.
  rewrite Hrr. cbn [bind].
  destruct (Qltb rr' 2) eqn:Hlt; [discriminate |].
  specialize (Hnz eq_refl).
  rewrite (position_size_cases self' capital entry None Hnz). cbn [bind].
  rewrite Hmps, Hsl.
  set (t := Qtrunc (capital * RiskManager.max_position_size self / entry)).
  destruct (Z.max 0 t =? 0)%Z eqn:Hzero; [discriminate |].
  apply Z.eqb_neq in Hzero. intros [= <- <- <- <-].
  assert (Ht : (0 < t)%Z) by lia.
  replace (Z.max 0 t) with t by lia.
  split; [exact Ht |].
  split; [now apply Qltb_ge in Hlt |].
  split; [reflexivity | split; [reflexivity |]].
  rewrite Hcur. apply Qnot_le_lt. intros Hle. apply Hhalt in Hle.
  discriminate Hle.
Qed.

(** X6: what an approved entry guarantees. When [should_enter_trade]
    answers [enter], the position size is a positive integer, the
    risk/reward ratio is at least 2, the stop-loss price is
    [entry * (1 - stop_loss_pct)], the maximum loss is
    [size * entry * stop_loss_pct], and the drawdown recorded by the call
    is below the limit. *)
Theorem X6_approved_entry (self : RiskManager.t)
    (capital entry target : Q) (ps : Z) (slp rr ml : Q) :
  (RiskManager.should_enter_trade self capital entry target).1
  = Ok (Enter ps slp rr ml) ->
  (0 < ps)%Z
  /\ 2 <= rr
  /\ slp = RiskManager.stop_loss_price_for self entry
  /\ ml = inject_Z ps * entry * RiskManager.stop_loss_pct self
  /\ RiskManager.current_drawdown
       (RiskManager.should_enter_trade self capital entry target).2
     < RiskManager.max_drawdown_pct self.
Proof. apply approved_entry_facts. Qed.

Lemma X6_approved_entry_witness :
  exists ps slp rr ml,
    (RiskManager.should_enter_trade RiskManager.default 100000 100 120).1
    = Ok (Enter ps slp rr ml)
    /\ (0 < ps)%Z
    /\ 2 <= rr.
Proof.
  do 4 eexists. split; [reflexivity |].
  destruct (X6_approved_entry RiskManager.default 100000 100 120
              _ _ _ _ eq_refl) as (Hps & Hrr & _).
  split; assumption.
Defined.



(** ** apply_risk_management: what the loop keeps *)

Lemma update_drawdown_take_profit_pct (self : RiskManager.t) (v : Q) :
  RiskManager.take_profit_pct (RiskManager.update_drawdown self v).2
  = RiskManager.take_profit_pct self.
Proof. update_drawdown_cases; reflexivity. Qed.

Lemma apply_risk_management_step_inv (s : ARM.state) (trade : nat) :
  arm_moved s trade (apply_risk_management_step s trade).2.
Proof.
  unfold apply_risk_management_step. cbv zeta.
  destruct (String.eqb (Trade.type (ARM.heap s trade)) "BUY") eqn:Hbuy.
  - apply String.eqb_eq in Hbuy.
    match goal with
    | |- context [RiskManager.should_enter_trade ?a ?b ?c ?d] =>
        destruct (RiskManager.should_enter_trade a b c d)
          as [[dec | err] rm'] eqn:Hdec
    end; [destruct dec |]; cbn [snd]; try apply arm_skip.
    eapply arm_enter; [exact Hbuy | exact Hdec].
  - destruct (String.eqb (Trade.type (ARM.heap s trade)) "SELL") eqn:Hsell;
      [destruct (ARM.current_position s) as [cp |] eqn:Hcp |];
      try (cbn [snd]; destruct s; apply arm_skip).
    apply String.eqb_eq in Hsell.
    match goal with
    | |- context [bind ?a ?k] => destruct (bind a k) as [why | err]
    end; cbn [snd]; [| destruct s; apply arm_skip].
    eapply arm_exit; [exact Hsell | exact Hcp].
Qed.

Lemma apply_risk_management_step_config (s : ARM.state) (trade : nat) :
  RiskManager.stop_loss_pct
    (ARM.risk_manager (apply_risk_management_step s trade).2)
  = RiskManager.stop_loss_pct (ARM.risk_manager s)
  /\ RiskManager.take_profit_pct
       (ARM.risk_manager (apply_risk_management_step s trade).2)
     = RiskManager.take_profit_pct (ARM.risk_manager s).
Proof.
  unfold apply_risk_management_step. cbv zeta.
  destruct (String.eqb (Trade.type (ARM.heap s trade)) "BUY").
  - match goal with
    | |- context [RiskManager.should_enter_trade ?a ?b ?c ?d] =>
        pose proof (should_enter_trade_state a b c d) as Hst;
        destruct (RiskManager.should_enter_trade a b c d)
          as [[dec | err] rm']
    end; cbn [snd] in Hst; subst rm'; [destruct dec |]; cbn;
      now rewrite update_drawdown_stop_loss_pct,
        update_drawdown_take_profit_pct.
  - destruct (String.eqb (Trade.type (ARM.heap s trade)) "SELL");
      [destruct (ARM.current_position s) |]; try (split; reflexivity).
    match goal with
    | |- context [bind ?a ?k] => destruct (bind a k)
    end; split; reflexivity.
Qed.

(** Induction over the loop: what every iteration keeps, the loop keeps. *)
Lemma apply_risk_management_loop_ind (P : ARM.state -> Prop) :
  (forall s trade, P s -> P (apply_risk_management_step s trade).2) ->
  forall trades s, P s -> P (apply_risk_management_loop s trades).2.
Proof.
  intros Hstep. induction trades as [| trade rest IH]; intros s Hs;
    [exact Hs |].
  cbn [apply_risk_management_loop].
  specialize (Hstep s trade Hs).
  destruct (apply_risk_management_step s trade) as [[[] | err] s1];
    cbn [snd] in *; [now apply IH | exact Hstep].
Qed.

Lemma apply_risk_management_final (h : store) (trades : list nat)
    (rm : RiskManager.t) :
  let s' := (apply_risk_management_loop (ARM.mk h rm [] None) trades).2 in
  (apply_risk_management h trades rm).1.2 = ARM.heap s'
  /\ forall managed,
       (apply_risk_management h trades rm).1.1 = Ok managed ->
       managed = ARM.managed_trades s'.
Proof.
  cbv zeta. unfold apply_risk_management.
  destruct (apply_risk_management_loop (ARM.mk h rm [] None) trades)
    as [[[] | err] s']; cbn; split; try reflexivity.
  - now intros managed [= <-].
  - discriminate.
Qed.

Lemma apply_risk_management_step_type (s : ARM.state) (trade r : nat) :
  Trade.type (ARM.heap (apply_risk_management_step s trade).2 r)
  = Trade.type (ARM.heap s r).
Proof.
  destruct (apply_risk_management_step_spec s trade) as (Hcore & _).
  specialize (Hcore r). unfold Trade.core in Hcore. congruence.
Qed.

Lemma sells_follow_buys_snoc (h : store) (l : list nat) (r : nat) :
  sells_follow_buys h l ->
  (Trade.type (h r) = "SELL"%string ->
   exists b, last l = Some b /\ Trade.type (h b) = "BUY"%string) ->
  sells_follow_buys h (l ++ [r]).
Proof.
  intros Hold Hnew k x Hk Hsell.
  destruct (decide (k < length l)%nat) as [Hlt | Hge].
  - rewrite lookup_app_l in Hk by exact Hlt.
    destruct (Hold k x Hk Hsell) as (b & Hk1 & Hb & Hbuy).
    exists b. split; [exact Hk1 | split; [| exact Hbuy]].
    now apply lookup_app_l_Some.
  - rewrite lookup_app_r in Hk by lia.
    destruct (k - length l)%nat as [| m] eqn:Hm;
      [| destruct m; discriminate Hk].
    injection Hk as <-. destruct (Hnew Hsell) as (b & Hlast & Hbuy).
    assert (Hlen : (1 <= length l)%nat)
      by (destruct l; [discriminate Hlast | cbn; lia]).
    exists b. split; [lia | split; [| exact Hbuy]].
    rewrite lookup_app_l by lia. rewrite last_lookup in Hlast.
    replace (k - 1)%nat with (pred (length l)) by lia. exact Hlast.
Qed.

(** X10: the returned list pairs every exit with an entry. In the list
    [apply_risk_management] returns, a SELL never comes first and never
    follows another SELL: the trade right before it is an approved BUY. *)
Theorem X10_managed_sells_follow_buys (h : store) (trades : list nat)
    (rm : RiskManager.t) (managed : list nat) :
  (apply_risk_management h trades rm).1.1 = Ok managed ->
  sells_follow_buys h managed.
Proof.
  intros Hok.
  destruct (apply_risk_management_final h trades rm) as [_ Hman].
  rewrite (Hman managed Hok). clear Hman Hok.
  pose (P := fun s : ARM.state =>
               (forall r, Trade.type (ARM.heap s r) = Trade.type (h r))
               /\ sells_follow_buys h (ARM.managed_trades s)
               /\ forall cp, ARM.current_position s = Some cp ->
                             last (ARM.managed_trades s) = Some cp
                             /\ Trade.type (h cp) = "BUY"%string).
  assert (HP : P (apply_risk_management_loop (ARM.mk h rm [] None) trades).2).
  { apply (apply_risk_management_loop_ind P).
    - intros s trade (Hty & Hsf & Hcp).
      pose proof (apply_risk_management_step_type s trade) as Hty'.
      pose proof (apply_risk_management_step_inv s trade) as Hmv.
      split; [intros r; now rewrite Hty', Hty |].
      destruct Hmv as [rm' | rm' capital ps slp rr ml Hbuy Hdec | cp why Hs Hc];
        cbn.
      + now split.
      + rewrite Hty in Hbuy. split.
        * apply sells_follow_buys_snoc; [exact Hsf |]. congruence.
        * intros cp [= <-]. now rewrite last_snoc.
      + split; [| discriminate].
        apply sells_follow_buys_snoc; [exact Hsf |]. intros _.
        exists cp. exact (Hcp cp Hc).
    - split; [reflexivity | split; [| discriminate]].
      intros k r Hk. destruct k; discriminate Hk. }
  exact (proj1 (proj2 HP)).
Qed.

Lemma X10_managed_sells_follow_buys_witness :
  exists managed : list nat,
    (apply_risk_management two_trades [1; 0; 1]%nat binary_manager).1.1
    = Ok managed
    /\ managed = [0; 1]%nat
    /\ sells_follow_buys two_trades managed.
Proof.
  eexists. split; [vm_compute; reflexivity |]. split; [reflexivity |].
  apply (X10_managed_sells_follow_buys two_trades [1; 0; 1]%nat
           binary_manager).
  vm_compute. reflexivity.
Defined.

(** X11: every returned trade is annotated. In the store
    [apply_risk_management] leaves, each returned BUY carries a positive
    [position_size], the [stop_loss_price] [price * (1 - stop_loss_pct)] and
    a [risk_reward] of at least 2, and each returned SELL carries an
    [exit_reason]. *)
Theorem X11_managed_annotated (h : store) (trades : list nat)
    (rm : RiskManager.t) (managed : list nat) (r : nat) :
  (apply_risk_management h trades rm).1.1 = Ok managed ->
  r ∈ managed ->
  annotated (RiskManager.stop_loss_pct rm)
    ((apply_risk_management h trades rm).1.2 r).
Proof.
  intros Hok Hr.
  destruct (apply_risk_management_final h trades rm) as [Hheap Hman].
  rewrite Hheap. rewrite (Hman managed Hok) in Hr. clear Hheap Hman Hok.
  pose (P := fun s : ARM.state =>
               RiskManager.stop_loss_pct (ARM.risk_manager s)
               = RiskManager.stop_loss_pct rm
               /\ forall x, x ∈ ARM.managed_trades s ->
                            annotated (RiskManager.stop_loss_pct rm)
                              (ARM.heap s x)).
  assert (HP : P (apply_risk_management_loop (ARM.mk h rm [] None) trades).2).
  { apply (apply_risk_management_loop_ind P).
    - intros s trade (Hsl & Hann).
      destruct (apply_risk_management_step_config s trade) as [Hsl' _].
      pose proof (apply_risk_management_step_inv s trade) as Hmv.
      split; [now rewrite Hsl', Hsl |].
      destruct Hmv as [rm' | rm' capital ps slp rr ml Hbuy Hdec | cp why Hs Hc];
        cbn.
      + exact Hann.
      + intros x Hx. unfold store_set.
        destruct (Nat.eqb_spec x trade) as [-> | Hne].
        * pose proof (f_equal fst Hdec) as Hfst. cbn [fst] in Hfst.
          destruct (approved_entry_facts _ _ _ _ _ _ _ _ Hfst)
            as (Hps & Hrr & Hslp & _).
          split; cbn.
          -- intros _. exists ps, rr. rewrite Hslp, <- Hsl.
             repeat split; assumption.
          -- rewrite Hbuy. discriminate.
        * apply Hann. apply elem_of_app in Hx as [Hx | Hx]; [exact Hx |].
          apply list_elem_of_singleton in Hx. contradiction.
      + intros x Hx. unfold store_set.
        destruct (Nat.eqb_spec x trade) as [-> | Hne].
        * split; cbn; [rewrite Hs; discriminate | eauto].
        * apply Hann. apply elem_of_app in Hx as [Hx | Hx]; [exact Hx |].
          apply list_elem_of_singleton in Hx. contradiction.
    - split; [reflexivity |]. intros x Hx. inversion Hx. }
  exact (proj2 HP r Hr).
Qed.

Lemma X11_managed_annotated_witness :
  annotated 0.125
    ((apply_risk_management two_trades [0; 1]%nat binary_manager).1.2 0%nat)
  /\ Trade.position_size
       ((apply_risk_management two_trades [0; 1]%nat binary_manager).1.2
          0%nat) = Some 1562%Z.
Proof.
  split; [| reflexivity].
  apply (X11_managed_annotated two_trades [0; 1]%nat binary_manager
           [0; 1]%nat 0%nat); [reflexivity |].
  apply list_elem_of_here.
Defined.

(** ** Backtester: the ledger *)

(** Induction over the loop of [run], for a property of the cash, the
    position and the ledger that every possible trade keeps. *)
Lemma execute_invariant (P : Backtester.t -> Prop) :
  (forall self self',
     Backtester.cash self' = Backtester.cash self ->
     Backtester.position self' = Backtester.position self ->
     Backtester.trades self' = Backtester.trades self ->
     Backtester.initial_capital self' = Backtester.initial_capital self ->
     P self -> P self') ->
  (forall self row p mid, P self -> traded self row p mid -> P mid) ->
  forall rows self self',
    Backtester.execute self rows = Ok self' -> P self -> P self'.
Proof.
  intros Hext Htr. induction rows as [| [row pos] rows IH];
    intros self self' H HP.
  - now injection H as <-.
  - cbn [Backtester.execute] in H.
    destruct (Backtester.step self (row, pos)) as [s1 | e] eqn:Hs;
      [| discriminate H].
    cbn [bind] in H. apply (IH s1 self' H).
    destruct pos as [p |].
    + apply step_defined_inv in Hs as (mid & Ht & Hic & Hc & Hp & Hl & _).
      apply (Hext mid s1); try assumption. exact (Htr self row p mid HP Ht).
    + rewrite step_undefined in Hs. now injection Hs as <-.
Qed.

Lemma alternates_snoc (ledger : list Trade.t) (x : Trade.t) :
  alternates ledger ->
  Trade.type x
  = (if Nat.even (length ledger) then "BUY"%string else "SELL"%string) ->
  alternates (ledger ++ [x]).
Proof.
  intros Hold Hx k y Hk.
  destruct (decide (k < length ledger)%nat) as [Hlt | Hge].
  - rewrite lookup_app_l in Hk by exact Hlt. now apply Hold.
  - rewrite lookup_app_r in Hk by lia.
    destruct (k - length ledger)%nat as [| m] eqn:Hm;
      [| destruct m; discriminate Hk].
    injection Hk as <-. replace k with (length ledger) by lia. exact Hx.
Qed.

Lemma execute_parity (rows : list (Row.t * option Z)) :
  forall self self',
    Backtester.execute self rows = Ok self' ->
    ledger_parity self -> ledger_parity self'.
Proof.
  apply (execute_invariant ledger_parity).
  - intros self self' _ Hp Hl _. unfold ledger_parity. now rewrite Hp, Hl.
  - intros self row p mid [Halt Hpar] Ht.
    destruct Ht as [| shares Hp Hpos Hz Hs Hgt | Hp Hpos];
      unfold ledger_parity; cbn.
    + now split.
    + destruct Hpar as [[_ Hev] | [Hlt _]]; [| lia].
      split; [apply alternates_snoc; [exact Halt | now rewrite Hev] |].
      right. split; [exact Hgt |].
      rewrite length_app. cbn. rewrite Nat.add_1_r, Nat.even_succ.
      now rewrite <- Nat.negb_even, Hev.
    + destruct Hpar as [[Hz _] | [_ Hodd]]; [lia |].
      split; [apply alternates_snoc; [exact Halt | now rewrite Hodd] |].
      left. split; [reflexivity |].
      rewrite length_app. cbn. rewrite Nat.add_1_r, Nat.even_succ.
      now rewrite <- Nat.negb_even, Hodd.
Qed.

Lemma reset_parity (capital : Q) : ledger_parity (Backtester.reset capital).
Proof.
  split; [intros k x Hk; destruct k; discriminate Hk |].
  left. split; reflexivity.
Qed.

(** X12: at most one position is open at a time. In the ledger of a run,
    after any number of bars, the trades at even places are BUYs and those
    at odd places are SELLs, and a position is open exactly when the ledger
    holds an odd number of trades. *)
Theorem X12_ledger_alternates (capital : Q) (data : list Row.t) (n : nat)
    (s : Backtester.t) :
  state_after capital data n = Ok s ->
  alternates (Backtester.trades s)
  /\ (0 <= Backtester.position s)%Z
  /\ ((0 < Backtester.position s)%Z
      <-> Nat.even (length (Backtester.trades s)) = false).
Proof.
  intros Hs. unfold state_after in Hs.
  destruct (execute_parity _ _ _ Hs (reset_parity capital)) as [Halt Hpar].
  split; [exact Halt |].
  destruct Hpar as [[Hz Hev] | [Hgt Hodd]].
  - rewrite Hz, Hev. split; [lia |]. split; [lia | discriminate].
  - rewrite Hodd. split; [lia |]. split; [reflexivity | intros _; exact Hgt].
Qed.

Lemma X12_ledger_alternates_witness :
  exists s b x,
    state_after 100000
      (TradingStrategy.sma_crossover (frame [10; 11; 9; 12; 8]) 1 2) 5 = Ok s
    /\ Backtester.trades s = [b; x]
    /\ Trade.type b = "BUY"%string
    /\ Trade.type x = "SELL"%string.
Proof.
  pose (data := TradingStrategy.sma_crossover (frame [10; 11; 9; 12; 8]) 1 2).
  destruct (state_after 100000 data 5) as [s | e] eqn:Hs;
    [| vm_compute in Hs; discriminate Hs].
  destruct (X12_ledger_alternates 100000 data 5 s Hs) as (Halt & _).
  destruct (Backtester.trades s) as [| b [| x [| ? ?]]] eqn:Htr;
    try (vm_compute in Hs; injection Hs as <-; discriminate Htr).
  exists s, b, x. split; [exact Hs | split; [exact Htr |]].
  split; [exact (Halt 0%nat b eq_refl) | exact (Halt 1%nat x eq_refl)].
Defined.

(** ** Backtester: the equity curve *)

(** X15: the final value is the last point of the curve. For every run
    that returns, the equity curve is not empty and the value of its last
    point is [final_value]. *)
Theorem X15_final_value_is_last_point (capital : Q) (data : list Row.t)
    (r : BacktestResult.t) :
  Backtester.run capital data = Ok r ->
  exists pt : EquityPoint.t,
    last (BacktestResult.equity_curve r) = Some pt
    /\ EquityPoint.value pt = BacktestResult.final_value r.
Proof.
  intros Hr. unfold Backtester.run in Hr.
  destruct (Backtester.run_loop capital data) as [self | e] eqn:Hrun;
    [| discriminate Hr].
  cbn [bind] in Hr.
  destruct (last data) as [last_row |] eqn:Hlast; [| discriminate Hr].
  cbn [bind] in Hr.
  destruct (Backtester.calc_win_rate _); [| discriminate Hr].
  cbn [bind] in Hr.
  destruct (Backtester.calc_max_drawdown _) eqn:Hmax; [| discriminate Hr].
  injection Hr as <-. cbn [BacktestResult.equity_curve
                            BacktestResult.final_value].
  pose proof (run_loop_curve_length capital data self Hrun) as Hlen.
  assert (Hne : (1 <= length (Backtester.equity_curve self))%nat).
  { destruct (Backtester.equity_curve self); [discriminate Hmax | cbn; lia]. }
  rewrite last_lookup in Hlast.
  destruct (run_loop_curve_lookup capital data self (pred (length data))
              last_row Hrun ltac:(lia) Hlast) as (s & Hs & Hpt).
  replace (S (pred (length data))) with (length data) in Hs by lia.
  rewrite state_after_all, Hrun in Hs by lia. injection Hs as <-.
  exists (point_of self last_row). split; [| reflexivity].
  rewrite last_lookup. rewrite <- Hpt. f_equal. lia.
Qed.

Lemma X15_final_value_is_last_point_witness :
  exists r pt,
    Backtester.run_sma_cross 100000 (frame [10; 11; 9; 12; 8]) 1 2 = Ok r
    /\ last (BacktestResult.equity_curve r) = Some pt
    /\ EquityPoint.value pt = BacktestResult.final_value r.
Proof.
  pose (data := TradingStrategy.sma_crossover (frame [10; 11; 9; 12; 8]) 1 2).
  destruct (Backtester.run 100000 data) as [r | e] eqn:Hrun;
    [| vm_compute in Hrun; discriminate Hrun].
  destruct (X15_final_value_is_last_point 100000 data r Hrun)
    as (pt & Hpt & Hv).
  exists r, pt. split; [exact Hrun | split; [exact Hpt | exact Hv]].
Defined.

(** ** Backtester: when [run] returns, and the range of its metrics *)

Lemma filter_length_le {A : Type} (P Q : A -> Prop)
    `{!forall x, stdpp.base.Decision (P x)}
    `{!forall x, stdpp.base.Decision (Q x)} (l : list A) :
  (forall x, P x -> Q x) ->
  (length (filter P l) <= length (filter Q l))%nat.
Proof.
  intros Himp. induction l as [| x l IH]; [reflexivity |].
  rewrite !filter_cons.
  destruct (decide (P x)) as [Hp | Hp], (decide (Q x)) as [Hq | Hq]; cbn;
    try lia.
  elim Hq. now apply Himp.
Qed.

Lemma winning_le_sells (trades : list Trade.t) :
  (length (filter (fun x => Backtester.is_winning x = true) trades)
   <= length (filter (fun x => Backtester.is_sell x = true) trades))%nat.
Proof.
  apply filter_length_le. intros x. unfold Backtester.is_winning.
  intros H. now apply andb_true_iff in H as [H _].
Qed.

(** X16: the win rate is a percentage. For every run that returns,
    [win_rate] lies between 0 and 100. *)
Theorem X16_win_rate_range (capital : Q) (data : list Row.t)
    (r : BacktestResult.t) :
  Backtester.run capital data = Ok r ->
  0 <= BacktestResult.win_rate r <= 100.
Proof.
  intros Hr. apply run_trades in Hr as (self & _ & _ & _ & _ & Hw).
  revert Hw. generalize (BacktestResult.win_rate r). intros w.
  unfold Backtester.calc_win_rate.
  pose proof (winning_le_sells (Backtester.trades self)) as Hle.
  destruct (Backtester.trades self) as [| x rest] eqn:Htr;
    [intros [= <-]; lra |].
  rewrite <- Htr in *. clear Htr.
  set (wins := length (filter _ (Backtester.trades self))) in *.
  set (sells := length (filter (fun x => Backtester.is_sell x = true)
                          (Backtester.trades self))) in *.
  unfold py_div.
  destruct (Qeq_bool (inject_Z (Z.of_nat sells)) 0) eqn:E; [discriminate |].
  cbn [bind]. intros [= <-].
  assert (Hs : (0 < sells)%nat).
  { destruct sells; [discriminate E | lia]. }
  assert (Hsq : 0 < inject_Z (Z.of_nat sells)).
  { change 0 with (inject_Z 0). rewrite <- Zlt_Qlt. lia. }
  assert (Hwq : 0 <= inject_Z (Z.of_nat wins))
    by (apply inject_Z_nonneg; lia).
  assert (Hws : inject_Z (Z.of_nat wins) <= inject_Z (Z.of_nat sells))
    by (rewrite <- Zle_Qle; lia).
  assert (H0 : 0 <= inject_Z (Z.of_nat wins) / inject_Z (Z.of_nat sells))
    by (apply Qle_shift_div_l; lra).
  assert (H1 : inject_Z (Z.of_nat wins) / inject_Z (Z.of_nat sells) <= 1)
    by (apply Qle_shift_div_r; lra).
  lra.
Qed.

Lemma X16_win_rate_range_witness :
  exists r,
    Backtester.run_sma_cross 100000 (frame [10; 11; 9; 12; 8]) 1 2 = Ok r
    /\ 0 <= BacktestResult.win_rate r <= 100.
Proof.
  pose (data := TradingStrategy.sma_crossover (frame [10; 11; 9; 12; 8]) 1 2).
  destruct (Backtester.run 100000 data) as [r | e] eqn:Hrun;
    [| vm_compute in Hrun; discriminate Hrun].
  exists r. split; [exact Hrun |].
  exact (X16_win_rate_range 100000 data r Hrun).
Defined.

(** On an alternating ledger the win rate fails exactly for a lone BUY. *)
Lemma calc_win_rate_alternating (trades : list Trade.t) :
  alternates trades ->
  (length trades = 1%nat ->
   Backtester.calc_win_rate trades = Raise ZeroDivisionError)
  /\ (length trades <> 1%nat ->
      exists w, Backtester.calc_win_rate trades = Ok w).
Proof.
  intros Halt. split.
  - intros Hlen. destruct trades as [| b [| x rest]]; try discriminate Hlen.
    rewrite calc_win_rate_no_sell; [reflexivity |].
    rewrite filter_cons, filter_nil.
    pose proof (Halt 0%nat b eq_refl) as Hb. cbn in Hb.
    unfold Backtester.is_sell. rewrite Hb. reflexivity.
  - intros Hlen. destruct trades as [| b [| x rest]];
      [eexists; reflexivity | cbn in Hlen; lia |].
    rewrite calc_win_rate_sells; [eauto |].
    pose proof (Halt 1%nat x eq_refl) as Hx. cbn in Hx.
    assert (Hin : x ∈ filter (fun y => Backtester.is_sell y = true)
                        (b :: x :: rest)).
    { apply list_elem_of_filter. split.
      - unfold Backtester.is_sell. now rewrite Hx.
      - apply list_elem_of_further, list_elem_of_here. }
    destruct (filter _ (b :: x :: rest)); [inversion Hin | discriminate].
Qed.

(** X17: what [run] does once its loop has completed. A frame of fewer
    than two bars raises [IndexError]; a longer frame whose ledger ends up
    holding a single trade (a BUY never closed) raises [ZeroDivisionError]
    in the win rate; every other frame gives a result. *)
Theorem X17_run_outcome (capital : Q) (data : list Row.t)
    (self : Backtester.t) :
  Backtester.run_loop capital data = Ok self ->
  ((length data <= 1)%nat -> Backtester.run capital data = Raise IndexError)
  /\ ((2 <= length data)%nat ->
      (length (Backtester.trades self) = 1%nat ->
       Backtester.run capital data = Raise ZeroDivisionError)
      /\ (length (Backtester.trades self) <> 1%nat ->
          exists r, Backtester.run capital data = Ok r)).
Proof.
  intros Hs. split.
  - intros Hlen. destruct data as [| row [| ? ?]]; [reflexivity | reflexivity |].
    cbn in Hlen. lia.
  - intros Hlen.
    pose proof (run_loop_curve_length capital data self Hs) as Hcurve.
    assert (Halt : alternates (Backtester.trades self)).
    { unfold Backtester.run_loop in Hs.
      exact (proj1 (execute_parity _ _ _ Hs (reset_parity capital))). }
    destruct (calc_win_rate_alternating _ Halt) as [Hone Hmany].
    unfold Backtester.run. rewrite Hs. cbn [bind].
    destruct (last data) as [last_row |] eqn:Hlast;
      [| apply last_None in Hlast; subst data; cbn in Hlen; lia].
    cbn [bind]. split.
    + intros H1. now rewrite (Hone H1).
    + intros Hn1. destruct (Hmany Hn1) as [w Hw]. rewrite Hw. cbn [bind].
      destruct (Backtester.equity_curve self) as [| pt pts] eqn:Hpts;
        [cbn in Hcurve; lia |].
      cbn [map Backtester.calc_max_drawdown bind]. eauto.
Qed.

Lemma X17_run_outcome_witness :
  Backtester.run 100000 (frame [10]) = Raise IndexError
  /\ Backtester.run_sma_cross 100000 (frame [10; 9; 11]) 1 2
     = Raise ZeroDivisionError
  /\ exists r,
       Backtester.run_sma_cross 100000 (frame [10; 11; 9; 12; 8]) 1 2 = Ok r.
Proof.
  split; [| split].
  - apply (X17_run_outcome 100000 (frame [10]) (Backtester.reset 100000));
      [reflexivity | cbn; lia].
  - pose (data := TradingStrategy.sma_crossover (frame [10; 9; 11]) 1 2).
    destruct (Backtester.run_loop 100000 data) as [self | e] eqn:Hrun;
      [| vm_compute in Hrun; discriminate Hrun].
    destruct (X17_run_outcome 100000 data self Hrun) as [_ H].
    destruct H as [Hone _]; [cbn; lia |].
    apply Hone. vm_compute in Hrun. injection Hrun as <-. reflexivity.
  - pose (data := TradingStrategy.sma_crossover
                    (frame [10; 11; 9; 12; 8]) 1 2).
    destruct (Backtester.run_loop 100000 data) as [self | e] eqn:Hrun;
      [| vm_compute in Hrun; discriminate Hrun].
    destruct (X17_run_outcome 100000 data self Hrun) as [_ H].
    destruct H as [_ Hmany]; [cbn; lia |].
    apply Hmany. vm_compute in Hrun. injection Hrun as <-. cbn. lia.
Defined.

(** ** Backtester: which bars trade *)

Lemma diff_from_lookup (l : list Z) :
  forall (prev : Z) (i : nat) (x y : Z),
    l !! i = Some x ->
    (prev :: l) !! i = Some y ->
    diff_from prev l !! i = Some (Some (x - y)%Z).
Proof.
  induction l as [| x0 l IH]; intros prev i x y Hx Hy;
    [destruct i; discriminate Hx |].
  destruct i as [| i]; cbn in *.
  - injection Hx as ->. injection Hy as ->. reflexivity.
  - now apply IH.
Qed.

(** The change marker of a bar after the first is the difference of its
    signal and the signal of the bar before. *)
Lemma with_position_lookup_S (data : list Row.t) (i : nat) (prev row : Row.t) :
  data !! i = Some prev ->
  data !! S i = Some row ->
  Backtester.with_position data !! S i
  = Some (row, Some (Row.Signal row - Row.Signal prev)%Z).
Proof.
  intros Hprev Hrow. destruct data as [| first rest]; [discriminate Hprev |].
  rewrite with_position_cons.
  change ((first :: rest) !! S i) with (rest !! i) in Hrow.
  change (((first, None) :: tail_rows first rest) !! S i)
    with (tail_rows first rest !! i).
  unfold tail_rows.
  apply lookup_zip_with_Some. exists row, (Some (Row.Signal row - Row.Signal prev)%Z).
  split; [reflexivity | split; [exact Hrow |]].
  apply diff_from_lookup.
  - change (map Row.Signal rest) with (Row.Signal <$> rest).
    now rewrite list_lookup_fmap, Hrow.
  - change (Row.Signal first :: map Row.Signal rest)
      with (Row.Signal <$> first :: rest).
    now rewrite list_lookup_fmap, Hprev.
Qed.

(** X19: only a full reversal of the signal trades. Whenever processing bar
    [n] appends a trade, the bar is not the first and the signal changed by
    2 from the bar before: by +2 for a BUY and by -2 for a SELL. With
    signals among -1, 0 and 1 a BUY needs the signal to go from -1 to 1; a
    move from 0 to 1 never buys. *)
Theorem X19_trades_on_reversals (capital : Q) (data : list Row.t) (n : nat)
    (s s' : Backtester.t) (x : Trade.t) :
  state_after capital data n = Ok s ->
  state_after capital data (S n) = Ok s' ->
  Backtester.trades s' = Backtester.trades s ++ [x] ->
  exists prev row : Row.t,
    (1 <= n)%nat
    /\ data !! (n - 1)%nat = Some prev
    /\ data !! n = Some row
    /\ ((Trade.type x = "BUY"%string
         /\ (Row.Signal row - Row.Signal prev = 2)%Z)
        \/ (Trade.type x = "SELL"%string
            /\ (Row.Signal row - Row.Signal prev = -2)%Z)).
Proof.
  intros Hs Hs' Happ.
  assert (Hgrow : Backtester.trades s' <> Backtester.trades s).
  { rewrite Happ. intros H. apply (f_equal length) in H.
    rewrite length_app in H. cbn in H. lia. }
  destruct (data !! n) as [row |] eqn:Hrow.
  - destruct n as [| i].
    + destruct (with_position_lookup data 0 row Hrow) as (pos & Hpos & _).
      destruct data as [| first rest]; [discriminate Hrow |].
      rewrite with_position_cons in Hpos. injection Hpos as _ <-.
      rewrite (state_after_S capital (first :: rest) 0 (first, None)) in Hs'
        by reflexivity.
      rewrite Hs in Hs'. cbn [bind] in Hs'. rewrite step_undefined in Hs'.
      injection Hs' as <-. now elim Hgrow.
    + destruct (data !! i) as [prev |] eqn:Hprev;
        [| apply lookup_ge_None in Hprev; apply lookup_lt_Some in Hrow; lia].
      rewrite (state_after_S _ _ _ _ (with_position_lookup_S _ _ _ _ Hprev Hrow)),
        Hs in Hs'.
      cbn [bind] in Hs'.
      apply step_defined_inv in Hs' as (mid & Ht & _ & _ & _ & Htr & _).
      rewrite Htr in Happ, Hgrow.
      exists prev, row. split; [lia |].
      replace (S i - 1)%nat with i by lia.
      split; [exact Hprev | split; [reflexivity |]].
      destruct Ht as [| shares Hp Hpos Hz Hsh Hgt | Hp Hpos]; cbn in *.
      * now elim Hgrow.
      * apply app_inj_tail in Happ as [_ <-]. left. now split.
      * apply app_inj_tail in Happ as [_ <-]. right. now split.
  - apply lookup_ge_None in Hrow.
    rewrite !state_after_all in * by lia.
    rewrite Hs in Hs'. injection Hs' as <-. now elim Hgrow.
Qed.

Lemma X19_trades_on_reversals_witness :
  exists s s' x prev row,
    state_after 100000
      (TradingStrategy.sma_crossover (frame [10; 11; 9; 12; 8]) 1 2) 3 = Ok s
    /\ state_after 100000
         (TradingStrategy.sma_crossover (frame [10; 11; 9; 12; 8]) 1 2) 4
       = Ok s'
    /\ Backtester.trades s' = Backtester.trades s ++ [x]
    /\ Row.Signal prev = (-1)%Z /\ Row.Signal row = 1%Z
    /\ Trade.type x = "BUY"%string.
Proof.
  pose (data := TradingStrategy.sma_crossover (frame [10; 11; 9; 12; 8]) 1 2).
  destruct (state_after 100000 data 3) as [s | e] eqn:Hs;
    [| vm_compute in Hs; discriminate Hs].
  destruct (state_after 100000 data 4) as [s' | e] eqn:Hs';
    [| vm_compute in Hs'; discriminate Hs'].
  assert (Happ : Backtester.trades s'
                 = Backtester.trades s ++ [Backtester.buy_trade 12 8333 99996 3]).
  { vm_compute in Hs, Hs'. injection Hs as <-. injection Hs' as <-.
    reflexivity. }
  destruct (X19_trades_on_reversals 100000 data 3 s s' _ Hs Hs' Happ)
    as (prev & row & _ & Hprev & Hrow & _).
  exists s, s', (Backtester.buy_trade 12 8333 99996 3), prev, row.
  split; [exact Hs | split; [exact Hs' | split; [exact Happ |]]].
  vm_compute in Hprev, Hrow. injection Hprev as <-. injection Hrow as <-.
  repeat split.
Defined.

(** ** TradingStrategy.sma_crossover *)

Lemma sma_crossover_lookup (data : list Row.t) (short_window long_window : nat)
    (i : nat) :
  TradingStrategy.sma_crossover data short_window long_window !! i
  = (fun r =>
       Row.mk (Row.date r) (Row.Close r)
         (TradingStrategy.sma_signal short_window long_window
            (map Row.Close data) i)) <$> data !! i.
Proof. unfold TradingStrategy.sma_crossover. apply list_lookup_imap. Qed.

Lemma gt_defined_irrefl (a : option Q) : TradingStrategy.gt_defined a a = false.
Proof. destruct a as [x |]; [apply Qltb_ge; lra | reflexivity]. Qed.

Lemma rolling_mean_warm_up (window : nat) (closes : list Q) (i : nat) :
  window = 0%nat \/ (S i < window)%nat ->
  TradingStrategy.rolling_mean window closes i = None.
Proof.
  intros H. unfold TradingStrategy.rolling_mean.
  destruct H as [-> | H]; [reflexivity |].
  apply Nat.ltb_lt in H. rewrite H. now rewrite orb_true_r.
Qed.

Lemma gt_defined_None_l (b : option Q) : TradingStrategy.gt_defined None b = false.
Proof. reflexivity. Qed.

Lemma gt_defined_None_r (a : option Q) : TradingStrategy.gt_defined a None = false.
Proof. now destruct a. Qed.

Lemma sma_signal_zero (short_window long_window : nat) (closes : list Q)
    (i : nat) :
  short_window = long_window
  \/ short_window = 0%nat \/ long_window = 0%nat
  \/ (S i < short_window)%nat \/ (S i < long_window)%nat ->
  TradingStrategy.sma_signal short_window long_window closes i = 0%Z.
Proof.
  intros H. unfold TradingStrategy.sma_signal.
  destruct H as [-> | [H | [H | [H | H]]]].
  - now rewrite !gt_defined_irrefl.
  - rewrite (rolling_mean_warm_up short_window) by now left.
    now rewrite gt_defined_None_l, gt_defined_None_r.
  - rewrite (rolling_mean_warm_up long_window) by now left.
    now rewrite gt_defined_None_l, gt_defined_None_r.
  - rewrite (rolling_mean_warm_up short_window) by now right.
    now rewrite gt_defined_None_l, gt_defined_None_r.
  - rewrite (rolling_mean_warm_up long_window) by now right.
    now rewrite gt_defined_None_l, gt_defined_None_r.
Qed.

(** X21: no signal without two distinct, filled windows. The signal of a
    bar is 0 while either moving average lacks history (the bar's rank is
    below the window), when a window is 0, and at every bar when the two
    windows are equal. *)
Theorem X21_sma_no_signal (data : list Row.t) (short_window long_window : nat)
    (i : nat) (out : Row.t) :
  TradingStrategy.sma_crossover data short_window long_window !! i
  = Some out ->
  short_window = long_window
  \/ short_window = 0%nat \/ long_window = 0%nat
  \/ (S i < short_window)%nat \/ (S i < long_window)%nat ->
  Row.Signal out = 0%Z.
Proof.
  intros Hout Hcond. rewrite sma_crossover_lookup in Hout.
  destruct (data !! i) as [row |]; [| discriminate Hout].
  injection Hout as <-. cbn. now apply sma_signal_zero.
Qed.

Lemma X21_sma_no_signal_witness :
  exists out : Row.t,
    TradingStrategy.sma_crossover (frame [10; 11; 9; 12; 8]) 20 50 !! 4%nat
    = Some out
    /\ Row.Signal out = 0%Z.
Proof.
  eexists. split; [reflexivity |].
  eapply (X21_sma_no_signal (frame [10; 11; 9; 12; 8]) 20 50 4);
    [reflexivity |].
  right. right. right. left. lia.
Defined.

(** A row whose change marker is undefined or is neither 2 nor -2 leaves
    cash, position and ledger alone, and cannot raise. *)
Lemma execute_quiet (rows : list (Row.t * option Z)) :
  Forall (fun rp => rp.2 <> Some 2%Z /\ rp.2 <> Some (-2)%Z) rows ->
  forall self,
    exists self',
      Backtester.execute self rows = Ok self'
      /\ Backtester.cash self' = Backtester.cash self
      /\ Backtester.position self' = Backtester.position self
      /\ Backtester.trades self' = Backtester.trades self.
Proof.
  induction rows as [| [row pos] rows IH]; intros Hall self;
    [exists self; now repeat split |].
  inversion Hall as [| ? ? [H2 Hm2] Hrest]; subst. cbn [snd] in *.
  cbn [Backtester.execute].
  assert (Hstep : exists s1,
             Backtester.step self (row, pos) = Ok s1
             /\ Backtester.cash s1 = Backtester.cash self
             /\ Backtester.position s1 = Backtester.position self
             /\ Backtester.trades s1 = Backtester.trades self).
  { destruct pos as [p |]; [| exists self; now repeat split].
    unfold Backtester.step, Backtester.trade_on. cbn [fst snd].
    assert (Hp2 : (p =? 2)%Z = false) by (apply Z.eqb_neq; congruence).
    assert (Hpm : (p =? -2)%Z = false) by (apply Z.eqb_neq; congruence).
    rewrite Hp2, Hpm. cbn [andb bind]. eexists. now repeat split. }
  destruct Hstep as (s1 & Hs1 & Hc & Hp & Ht). rewrite Hs1. cbn [bind].
  destruct (IH Hrest s1) as (s2 & Hs2 & Hc2 & Hp2 & Ht2).
  exists s2. split; [exact Hs2 |]. repeat split; congruence.
Qed.

Lemma with_position_quiet (data : list Row.t) :
  Forall (fun row => Row.Signal row = 0%Z) data ->
  Forall (fun rp => rp.2 <> Some 2%Z /\ rp.2 <> Some (-2)%Z)
    (Backtester.with_position data).
Proof.
  intros Hz. rewrite Forall_lookup in Hz. apply Forall_lookup.
  intros i [row pos] Hi. cbn [snd].
  assert (Hrow : data !! i = Some row).
  { rewrite <- (with_position_fst data), list_lookup_fmap, Hi. reflexivity. }
  destruct i as [| j].
  - destruct data as [| first rest]; [discriminate Hrow |].
    rewrite with_position_cons in Hi. injection Hi as _ <-.
    split; discriminate.
  - destruct (data !! j) as [prev |] eqn:Hprev;
      [| apply lookup_ge_None in Hprev; apply lookup_lt_Some in Hrow; lia].
    rewrite (with_position_lookup_S data j prev row Hprev Hrow) in Hi.
    injection Hi as <-. rewrite (Hz _ _ Hprev), (Hz _ _ Hrow).
    split; discriminate.
Qed.

Lemma scan_flat (values : list Q) (peak : Q) :
  Forall (fun v => v == peak) values ->
  foldl Backtester.drawdown_step (peak, Fin 0) values = (peak, Fin 0).
Proof.
  induction values as [| v values IH]; intros Hall; [reflexivity |].
  inversion Hall as [| ? ? Hv Hrest]; subst. cbn [foldl].
  replace (Backtester.drawdown_step (peak, Fin 0) v) with (peak, Fin 0);
    [now apply IH |].
  unfold Backtester.drawdown_step. cbn [fst snd].
  assert (Hlt : Qltb peak v = false) by (apply Qltb_ge; lra).
  rewrite Hlt. unfold np_div.
  destruct (Qeq_bool peak 0) eqn:Hz.
  - assert (H1 : Qltb 0 (peak - v) = false) by (apply Qltb_ge; lra).
    assert (H2 : Qltb (peak - v) 0 = false) by (apply Qltb_ge; lra).
    now rewrite H1, H2.
  - apply Qeq_bool_false in Hz. cbn [np_mul np_gtb].
    assert (Hd : (peak - v) / peak * 100 == 0).
    { rewrite Hv. field. exact Hz. }
    assert (H0 : Qltb 0 ((peak - v) / peak * 100) = false)
      by (apply Qltb_ge; lra).
    now rewrite H0.
Qed.

(** A frame without any signal runs flat. *)
Lemma run_without_signal (capital : Q) (data : list Row.t) :
  Forall (fun row => Row.Signal row = 0%Z) data ->
  (2 <= length data)%nat ->
  exists r : BacktestResult.t,
    Backtester.run capital data = Ok r
    /\ BacktestResult.trades r = []
    /\ BacktestResult.win_rate r = 0
    /\ BacktestResult.final_value r == capital
    /\ BacktestResult.max_drawdown r = Fin 0
    /\ Forall (fun pt => EquityPoint.value pt == capital)
         (BacktestResult.equity_curve r).
Proof.
  intros Hz Hlen.
  pose proof (with_position_quiet data Hz) as Hq.
  destruct (execute_quiet _ Hq (Backtester.reset capital))
    as (self & Hrun & Hc & Hp & Ht).
  cbn in Hc, Hp, Ht.
  fold (Backtester.run_loop capital data) in Hrun.
  assert (Hcurve : Forall (fun pt => EquityPoint.value pt == capital)
                     (Backtester.equity_curve self)).
  { apply Forall_lookup. intros k pt Hk.
    pose proof (run_loop_curve_length capital data self Hrun) as Hl.
    apply lookup_lt_Some in Hk as Hlt.
    destruct (data !! S k) as [row |] eqn:Hrow;
      [| apply lookup_ge_None in Hrow; lia].
    destruct (run_loop_curve_lookup capital data self (S k) row Hrun
                ltac:(lia) Hrow) as (s & Hs & Hlook).
    replace (S k - 1)%nat with k in Hlook by lia.
    rewrite Hk in Hlook. injection Hlook as ->.
    unfold state_after in Hs.
    destruct (execute_quiet _ (Forall_take _ (S (S k)) _ Hq)
                (Backtester.reset capital)) as (s' & Hs' & Hc' & Hp' & _).
    rewrite Hs in Hs'. injection Hs' as <-. cbn in Hc', Hp'.
    unfold point_of. cbn [EquityPoint.value]. rewrite Hc', Hp'.
    change (inject_Z 0) with 0. ring. }
  unfold Backtester.run. rewrite Hrun. cbn [bind].
  destruct (last data) as [last_row |] eqn:Hlast;
    [| apply last_None in Hlast; subst data; cbn in Hlen; lia].
  cbn [bind]. rewrite Ht. cbn [Backtester.calc_win_rate bind].
  pose proof (run_loop_curve_length capital data self Hrun) as Hl.
  destruct (Backtester.equity_curve self) as [| pt pts] eqn:Hpts;
    [cbn in Hl; lia |].
  cbn [map Backtester.calc_max_drawdown bind].
  eexists. split; [reflexivity |]. cbn.
  split; [reflexivity | split; [reflexivity |]].
  split; [rewrite Hc, Hp; change (inject_Z 0) with 0; ring |].
  split; [| exact Hcurve].
  inversion Hcurve as [| ? ? Hpt Hrest]; subst.
  change (foldl Backtester.drawdown_step
            (Backtester.drawdown_step (EquityPoint.value pt, Fin 0)
               (EquityPoint.value pt))
            (map EquityPoint.value pts))
    with (foldl Backtester.drawdown_step (EquityPoint.value pt, Fin 0)
            (EquityPoint.value pt :: map EquityPoint.value pts)).
  rewrite scan_flat; [reflexivity |].
  constructor; [reflexivity |].
  change (map EquityPoint.value pts) with (EquityPoint.value <$> pts).
  apply Forall_fmap. eapply Forall_impl; [exact Hrest |].
  cbn. intros x Hx. lra.
Qed.

(** X22: too little history means no trading. When the frame is shorter
    than one of the windows (or the windows are equal, or one is 0), a run
    of the crossover over at least two bars returns with an empty ledger, a
    win rate of 0, a drawdown of 0, and the initial capital as every equity
    value and as final value. *)
Theorem X22_short_history_flat (capital : Q) (data : list Row.t)
    (short_window long_window : nat) :
  (length data < long_window)%nat \/ (length data < short_window)%nat
  \/ short_window = long_window
  \/ short_window = 0%nat \/ long_window = 0%nat ->
  (2 <= length data)%nat ->
  exists r : BacktestResult.t,
    Backtester.run_sma_cross capital data short_window long_window = Ok r
    /\ BacktestResult.trades r = []
    /\ BacktestResult.win_rate r = 0
    /\ BacktestResult.final_value r == capital
    /\ BacktestResult.max_drawdown r = Fin 0
    /\ Forall (fun pt => EquityPoint.value pt == capital)
         (BacktestResult.equity_curve r).
Proof.
  intros Hcond Hlen. unfold Backtester.run_sma_cross.
  apply run_without_signal;
    [| unfold TradingStrategy.sma_crossover; now rewrite length_imap].
  apply Forall_lookup. intros i out Hout.
  rewrite sma_crossover_lookup in Hout.
  destruct (data !! i) as [row |] eqn:Hrow; [| discriminate Hout].
  injection Hout as <-. cbn. apply lookup_lt_Some in Hrow.
  apply sma_signal_zero. destruct Hcond as [H | [H | [H | [H | H]]]].
  - right. right. right. right. lia.
  - right. right. right. left. lia.
  - now left.
  - right. now left.
  - right. right. now left.
Qed.

Lemma X22_short_history_flat_witness :
  exists r : BacktestResult.t,
    Backtester.run_sma_cross 100000 (frame [10; 11; 9; 12; 8]) 20 50 = Ok r
    /\ BacktestResult.trades r = []
    /\ BacktestResult.final_value r == 100000.
Proof.
  destruct (X22_short_history_flat 100000 (frame [10; 11; 9; 12; 8]) 20 50)
    as (r & Hr & Ht & _ & Hf & _); [left; cbn; lia | cbn; lia |].
  exists r. split; [exact Hr | split; [exact Ht | exact Hf]].
Defined.

(** ** Backtester: the entries of the ledger *)

(** X24: every entry of the ledger is well formed. After any number of
    bars, each recorded trade has a positive share count and the value
    [shares * price]; a BUY has no [profit] key and a SELL has one. *)
Theorem X24_ledger_well_formed (capital : Q) (data : list Row.t) (n : nat)
    (s : Backtester.t) :
  state_after capital data n = Ok s ->
  Forall well_formed_trade (Backtester.trades s).
Proof.
  intros Hs. unfold state_after in Hs.
  apply (execute_invariant
           (fun self => Forall well_formed_trade (Backtester.trades self))
           ) with (rows := take n (Backtester.with_position data))
                  (self := Backtester.reset capital); try assumption.
  - intros self self' _ _ Hl _. now rewrite Hl.
  - intros self row p mid Hall Ht.
    destruct Ht as [| shares Hp Hpos Hz Hsh Hgt | Hp Hpos]; [exact Hall | |];
      cbn [Backtester.trades]; apply Forall_app; (split; [exact Hall |]);
      apply Forall_singleton; unfold well_formed_trade; cbn.
    + split; [exact Hgt | split; [reflexivity | now left]].
    + split; [exact Hpos | split; [reflexivity | right; eauto]].
  - constructor.
Qed.

Lemma X24_ledger_well_formed_witness :
  exists s,
    state_after 100000
      (TradingStrategy.sma_crossover (frame [10; 11; 9; 12; 8]) 1 2) 5 = Ok s
    /\ length (Backtester.trades s) = 2%nat
    /\ Forall well_formed_trade (Backtester.trades s).
Proof.
  pose (data := TradingStrategy.sma_crossover (frame [10; 11; 9; 12; 8]) 1 2).
  destruct (state_after 100000 data 5) as [s | e] eqn:Hs;
    [| vm_compute in Hs; discriminate Hs].
  exists s. split; [exact Hs |].
  split; [vm_compute in Hs; injection Hs as <-; reflexivity |].
  exact (X24_ledger_well_formed 100000 data 5 s Hs).
Defined.
